(** * Address Region Checker: a shallow embedding of the region matcher

  Source files embedded here:
  - [python-version/app.py]: [get_coordinates], [check_address_in_region],
    [process_addresses] (the multi-shapefile Streamlit application);
  - [python-version/check_address_in_region.py]: [get_coordinates],
    [check_address_in_region], [process_addresses] (the single-shapefile
    command-line script), in [Module Cli].

  What the embedding keeps from Python:
  - strings are [string], tuples and lists are [list];
  - a [dict] is an insertion-ordered association list ([Py.dict_set]
    overwrites in place or appends, as Python does);
  - an exception is a value [Raise e] of the [result] type, and [let*]
    propagates it;
  - the geocoder, shapely's [within] and the reprojection of a geometry
    are external: they are variables of [Section Engine]. *)

From Stdlib Require Import List String Ascii Bool Arith ZArith Lia.
From Stdlib Require Import Sorted Permutation.
Import ListNotations.
Local Open Scope string_scope.
Local Open Scope list_scope.

Set Implicit Arguments.

(** ** Exceptions *)

Inductive exn : Type :=
| ValueError   (* list.index on a missing element *)
| KeyError.    (* a Series without the requested label *)

Inductive result (A : Type) : Type :=
| Ok (a : A)
| Raise (e : exn).

Arguments Ok {A} a.
Arguments Raise {A} e.

Definition bind {A B : Type} (m : result A) (k : A -> result B) : result B :=
  match m with
  | Ok a => k a
  | Raise e => Raise e
  end.

Notation "'let*' x ':=' m 'in' k" := (bind m (fun x => k))
  (at level 10, x pattern, m at level 100, k at level 200).

(** ** Python builtins used by the program *)

Module Py.

(** [str.join]. *)
Fixpoint join (sep : string) (items : list string) : string :=
  match items with
  | [] => ""
  | [x] => x
  | x :: rest => x ++ sep ++ join sep rest
  end.

(** [str.replace old new] for a non-empty [old]: scan from the left, and at
    each occurrence of [old] emit [new] and jump over the occurrence.
    [skip] counts the characters of the current occurrence still to jump. *)
Fixpoint replace_from (skip : nat) (old new s : string) : string :=
  match s with
  | EmptyString => EmptyString
  | String c s' =>
      match skip with
      | S k => replace_from k old new s'
      | O =>
          if String.prefix old s
          then new ++ replace_from (String.length old - 1) old new s'
          else String c (replace_from 0 old new s')
      end
  end.

(** With an empty [old], Python puts [new] before every character and at
    the end. *)
Fixpoint interleave (new s : string) : string :=
  match s with
  | EmptyString => new
  | String c s' => new ++ String c (interleave new s')
  end.

Definition replace (old new s : string) : string :=
  match old with
  | EmptyString => interleave new s
  | String _ _ => replace_from 0 old new s
  end.

(** [sub in s]. *)
Fixpoint contains (sub s : string) : bool :=
  String.prefix sub s
  || match s with
     | EmptyString => false
     | String _ s' => contains sub s'
     end.

(** [list.index x]: position of the first element equal to [x];
    [None] stands for the [ValueError] Python raises. *)
Fixpoint index (x : string) (l : list string) : option nat :=
  match l with
  | [] => None
  | y :: rest =>
      if String.eqb y x then Some 0
      else match index x rest with
           | Some i => Some (S i)
           | None => None
           end
  end.

(** A [dict] with string keys: insertion-ordered, one entry per key. *)
Definition dict (V : Type) : Type := list (string * V).

Fixpoint dict_set {V : Type} (k : string) (v : V) (d : dict V) : dict V :=
  match d with
  | [] => [(k, v)]
  | (k', v') :: rest =>
      if String.eqb k' k then (k', v) :: rest
      else (k', v') :: dict_set k v rest
  end.

Fixpoint dict_get {V : Type} (k : string) (d : dict V) : option V :=
  match d with
  | [] => None
  | (k', v') :: rest => if String.eqb k' k then Some v' else dict_get k rest
  end.

Definition keys {V : Type} (d : dict V) : list string := map fst d.

(** [dict(pairs)]: a later pair with the same key overwrites the value. *)
Definition dict_of {V : Type} (pairs : list (string * V)) : dict V :=
  fold_left (fun d kv => dict_set (fst kv) (snd kv) d) pairs [].

(** [str.split sep] for a one-character separator. *)
Fixpoint split (sep : ascii) (s : string) : list string :=
  match s with
  | EmptyString => [""]
  | String c s' =>
      if Ascii.eqb c sep then "" :: split sep s'
      else match split sep s' with
           | [] => [String c ""]
           | h :: t => String c h :: t
           end
  end.

End Py.

(** ** [pathlib.Path(p).parts], POSIX flavour

  [posixpath.splitroot]: no leading slash, no root; exactly two leading
  slashes, the root is "//"; otherwise the root is "/".  The rest is split
  at "/" and the empty and "." segments are dropped. *)

Module Pathlib.

Definition sep : ascii := "/"%char.

Definition splitroot (p : string) : string * string :=
  match p with
  | String c1 rest1 =>
      if Ascii.eqb c1 sep then
        match rest1 with
        | String c2 rest2 =>
            if Ascii.eqb c2 sep then
              match rest2 with
              | String c3 _ =>
                  if Ascii.eqb c3 sep then ("/", rest1) else ("//", rest2)
              | EmptyString => ("//", rest2)
              end
            else ("/", rest1)
        | EmptyString => ("/", rest1)
        end
      else ("", p)
  | EmptyString => ("", p)
  end.

Definition keep_segment (x : string) : bool :=
  negb (String.eqb x "") && negb (String.eqb x ".").

Definition parts (p : string) : list string :=
  let '(root, rel) := splitroot p in
  let tail := filter keep_segment (Py.split sep rel) in
  if String.eqb root "" then tail else root :: tail.

End Pathlib.

(** ** The namespace prefix of a shapefile path

  [app.py], lines 49-51 and 68-70 (the same three statements):
<<
  parts = pathlib.Path(file_path).parts
  shape_files_idx = parts.index('shape_files')
  prefix = '_'.join(parts[shape_files_idx + 1:]).replace('.shp', '')
>> *)

Definition marker : string := "shape_files".

(** [parts[shape_files_idx + 1:]]. *)
Definition subpath (file_path : string) : result (list string) :=
  let parts := Pathlib.parts file_path in
  match Py.index marker parts with
  | None => Raise ValueError
  | Some shape_files_idx => Ok (skipn (shape_files_idx + 1) parts)
  end.

Definition prefix_of_segments (segments : list string) : string :=
  Py.replace ".shp" "" (Py.join "_" segments).

Definition prefix_of (file_path : string) : result string :=
  let* segments := subpath file_path in
  Ok (prefix_of_segments segments).

(** ['shape_files' in parts]. *)
Definition has_marker (file_path : string) : bool :=
  existsb (String.eqb marker) (Pathlib.parts file_path).

(** A path segment without an underscore. *)
Definition no_underscore (segment : string) : bool :=
  negb (Py.contains "_" segment).

(** [parts[:shape_files_idx]]: the root the dataset lives under. *)
Definition root_of (file_path : string) : result (list string) :=
  let parts := Pathlib.parts file_path in
  match Py.index marker parts with
  | None => Raise ValueError
  | Some shape_files_idx => Ok (firstn shape_files_idx parts)
  end.

(** ** [find_shapefiles] of [app.py], lines 121-143

    What the search of the directory comes to: the directory is not there,
    or the recursive glob yields the paths of the [.shp] files, or
    something raises on the way. *)

Inductive listing : Type :=
| NoDirectory
| Files (paths : list string)
| ListingRaises.

Fixpoint insert_sorted (x : string) (l : list string) : list string :=
  match l with
  | [] => [x]
  | y :: rest =>
      if String.leb x y then x :: l else y :: insert_sorted x rest
  end.

(** [sorted(shapefile_paths)]. *)
Definition sorted (l : list string) : list string :=
  fold_right insert_sorted [] l.

Definition find_shapefiles (found : listing) : list string :=
  match found with
  | NoDirectory => []          (* st.error, return [] *)
  | Files paths => sorted paths (* st.warning when empty, st.success else *)
  | ListingRaises => []        (* except Exception: st.error, return [] *)
  end.

(** ** Data model

    A cell of a pandas frame holds any Python object; the ones the program
    meets are [None], NaN (what pandas fills a new column with), booleans,
    numbers, strings and, in a [GeoDataFrame], shapely geometries.  Column
    dtypes are not modelled: a cell accepts any value. *)

Section Engine.

Variable Geometry : Type.
Variable Coord : Type.

Inductive value : Type :=
| VNone
| VNaN
| VBool (b : bool)
| VInt (n : Z)
| VStr (s : string)
| VGeom (g : Geometry).

(** [shapely.geometry.Point(x, y)]. *)
Record Point : Type := mkPoint { px : Coord; py : Coord }.

(** What [geolocator.geocode(address)] does: returns a location, returns
    [None], or raises. *)
Inductive geocoded : Type :=
| Location (longitude latitude : Coord)
| NoLocation
| GeocoderRaises.

(** The identifier of a coordinate reference system, such as "EPSG:4326". *)
Definition CRS : Type := string.

(** One row of a [GeoDataFrame]: its geometry and its other cells, in the
    order of the frame's columns. *)
Record Region : Type := mkRegion {
  geometry : Geometry;
  attributes : list value
}.

(** A [GeoDataFrame] as [gpd.read_file] returns it: the attribute columns,
    then the column named [geometry]. *)
Record GeoDataFrame : Type := mkGeoDataFrame {
  crs : CRS;
  attribute_columns : list string;
  regions_rows : list Region
}.

(** A [DataFrame] with the default index 0..len-1 (what [pd.read_csv]
    returns): its length and its columns, each with one cell per row. *)
Record DataFrame : Type := mkDataFrame {
  df_len : nat;
  df_data : list (string * list value)
}.

(** [df.columns]. *)
Definition columns (df : DataFrame) : list string := map fst (df_data df).

Definition has_column (name : string) (df : DataFrame) : bool :=
  existsb (String.eqb name) (columns df).

(** [df[name] = v] with a scalar [v]: an existing column is overwritten
    where it stands, a new one is added at the end. *)
Definition setitem (name : string) (v : value) (df : DataFrame) : DataFrame :=
  let data := repeat v (df_len df) in
  if has_column name df then
    mkDataFrame (df_len df)
      (map (fun cd : string * list value =>
              if String.eqb (fst cd) name then (fst cd, data) else cd)
           (df_data df))
  else mkDataFrame (df_len df) (df_data df ++ [(name, data)]).

Fixpoint list_set {A : Type} (i : nat) (v : A) (l : list A) : list A :=
  match l, i with
  | [], _ => []
  | _ :: t, O => v :: t
  | h :: t, S j => h :: list_set j v t
  end.

(** [df.at[idx, col] = v] for a row number [idx] below [len(df)]: the cell
    is overwritten; a column that does not exist yet is added at the end,
    NaN in the other rows.  (For a label absent from the index pandas would
    add a row; the driver only passes the numbers of the frame's own rows,
    and [list_set] leaves the column as it is there.) *)
Definition at_set (idx : nat) (col : string) (v : value) (df : DataFrame)
  : DataFrame :=
  if has_column col df then
    mkDataFrame (df_len df)
      (map (fun cd : string * list value =>
              if String.eqb (fst cd) col
              then (fst cd, list_set idx v (snd cd)) else cd)
           (df_data df))
  else
    mkDataFrame (df_len df)
      (df_data df ++ [(col, list_set idx v (repeat VNaN (df_len df)))]).

(** A row as [iterrows] yields it: a [Series] labelled by the columns. *)
Definition Series : Type := Py.dict value.

Definition row_at (df : DataFrame) (i : nat) : Series :=
  map (fun cd : string * list value => (fst cd, nth i (snd cd) VNaN))
      (df_data df).

(** [df.iterrows()]: the rows of the frame as it is when the loop starts. *)
Definition iterrows (df : DataFrame) : list Series :=
  map (row_at df) (seq 0 (df_len df)).

(** [row[label]]. *)
Definition series_get (row : Series) (label : string) : result value :=
  match Py.dict_get label row with
  | Some v => Ok v
  | None => Raise KeyError
  end.

(** The cell at row [i] of column [col], when both exist. *)
Definition cell (df : DataFrame) (i : nat) (col : string) : option value :=
  match Py.dict_get col (df_data df) with
  | Some data => nth_error data i
  | None => None
  end.

(** [regions.columns]. *)
Definition gdf_columns (regions : GeoDataFrame) : list string :=
  attribute_columns regions ++ ["geometry"].

(** [region.to_dict()] for a row [region] of [regions]. *)
Definition to_dict (regions : GeoDataFrame) (region : Region)
  : Py.dict value :=
  Py.dict_of (combine (attribute_columns regions) (attributes region)
              ++ [("geometry", VGeom (geometry region))]).

(** [col != 'geometry']. *)
Definition not_geometry (col : string) : bool :=
  negb (String.eqb col "geometry").

(** [f"{prefix}_{key}"]. *)
Definition namespaced (prefix key : string) : string :=
  prefix ++ "_" ++ key.

(** Truth value of what [check_address_in_region] returns: [None] and the
    empty [dict] are false. *)
Definition truthy (region_data : option (Py.dict value)) : bool :=
  match region_data with
  | Some (_ :: _) => true
  | _ => false
  end.

Definition items (region_data : option (Py.dict value)) : Py.dict value :=
  match region_data with
  | Some d => d
  | None => []
  end.

(** ** External collaborators *)

(** [Nominatim(...).geocode(address)]. *)
Variable geocode : value -> geocoded.

(** shapely's [point.within(geometry)]. *)
Variable within : Point -> Geometry -> bool.

(** The reprojection of one geometry from a CRS into another. *)
Variable reproject : CRS -> CRS -> Geometry -> Geometry.

(** [regions.to_crs(target)]: every geometry reprojected; the attribute
    columns and the order of the rows are kept. *)
Definition to_crs (regions : GeoDataFrame) (target : CRS) : GeoDataFrame :=
  mkGeoDataFrame target (attribute_columns regions)
    (map (fun region =>
            mkRegion (reproject (crs regions) target (geometry region))
                     (attributes region))
         (regions_rows regions)).

(** The CRS of [point_gdf]. *)
Definition point_crs : CRS := "EPSG:4326".

(** [if regions.crs != point_gdf.crs: regions = regions.to_crs(point_gdf.crs)] *)
Definition reconcile (regions : GeoDataFrame) : GeoDataFrame :=
  if negb (String.eqb (crs regions) point_crs)
  then to_crs regions point_crs
  else regions.

(** ** [get_coordinates] (both files)
<<
    try:
        location = geolocator.geocode(address)
        if location:
            return Point(location.longitude, location.latitude)
        return None
    except Exception as e:
        return None
>> *)
Definition get_coordinates (address : value) : option Point :=
  match geocode address with
  | Location longitude latitude => Some (mkPoint longitude latitude)
  | NoLocation => None
  | GeocoderRaises => None
  end.

(** ** [check_address_in_region] of [app.py] *)

(** Lines 56-58: the entries of one matching region, written into
    [combined_data] under their namespaced keys. *)
Definition merge_region (prefix : string) (combined_data : Py.dict value)
  (region_dict : Py.dict value) : Py.dict value :=
  fold_left
    (fun combined (kv : string * value) =>
       if not_geometry (fst kv)
       then Py.dict_set (namespaced prefix (fst kv)) (snd kv) combined
       else combined)
    region_dict combined_data.

(** Lines 53-58: the loop over the rows of one shapefile. *)
Definition scan_regions (point : Point) (prefix : string)
  (regions : GeoDataFrame) (combined_data : Py.dict value) : Py.dict value :=
  fold_left
    (fun combined region =>
       if within point (geometry region)
       then merge_region prefix combined (to_dict regions region)
       else combined)
    (regions_rows regions) combined_data.

(** Lines 44-58: the loop over [regions_list]. *)
Fixpoint scan_datasets (point : Point)
  (regions_list : list (string * GeoDataFrame))
  (combined_data : Py.dict value) : result (Py.dict value) :=
  match regions_list with
  | [] => Ok combined_data
  | (file_path, regions) :: rest =>
      let regions := reconcile regions in
      let* prefix := prefix_of file_path in
      scan_datasets point rest (scan_regions point prefix regions combined_data)
  end.

(** Lines 37-60; the last line is
    [return combined_data if combined_data else None]. *)
Definition check_address_in_region (address : value)
  (regions_list : list (string * GeoDataFrame))
  : result (option (Py.dict value)) :=
  match get_coordinates address with
  | None => Ok None
  | Some point =>
      let* combined_data := scan_datasets point regions_list [] in
      Ok (match combined_data with
          | [] => None
          | _ :: _ => Some combined_data
          end)
  end.

(** ** [process_addresses] of [app.py] *)

(** Lines 72-76: one column per attribute of one shapefile. *)
Definition add_columns (prefix : string) (region_columns : list string)
  (state : DataFrame * list string) : DataFrame * list string :=
  fold_left
    (fun (st : DataFrame * list string) col =>
       let column_name := namespaced prefix col in
       (setitem column_name VNone (fst st), snd st ++ [column_name]))
    region_columns state.

(** Lines 65-76: the frame with the region columns, and [all_columns]. *)
Fixpoint setup_columns (regions_list : list (string * GeoDataFrame))
  (state : DataFrame * list string) : result (DataFrame * list string) :=
  match regions_list with
  | [] => Ok state
  | (file_path, regions) :: rest =>
      let* prefix := prefix_of file_path in
      let region_columns := filter not_geometry (gdf_columns regions) in
      setup_columns rest (add_columns prefix region_columns state)
  end.

(** Lines 108-109:
    [for col, value in region_data.items(): df.at[idx, col] = value]. *)
Definition write_items (idx : nat) (region_data : Py.dict value)
  (df : DataFrame) : DataFrame :=
  fold_left
    (fun frame (cv : string * value) => at_set idx (fst cv) (snd cv) frame)
    region_data df.

(** Lines 104-109: the body of the loop for the row numbered [idx]. *)
Definition process_row (regions_list : list (string * GeoDataFrame))
  (idx : nat) (row : Series) (df : DataFrame) : result DataFrame :=
  let* address := series_get row "address" in
  let* region_data := check_address_in_region address regions_list in
  if truthy region_data then
    Ok (write_items idx (items region_data)
          (at_set idx "in_region" (VBool true) df))
  else Ok df.

(** Lines 89-111: [for idx, row in enumerate(df.iterrows())]. *)
Fixpoint process_rows (regions_list : list (string * GeoDataFrame))
  (idx : nat) (rows : list Series) (df : DataFrame) : result DataFrame :=
  match rows with
  | [] => Ok df
  | row :: rest =>
      let* df' := process_row regions_list idx row df in
      process_rows regions_list (S idx) rest df'
  end.

(** Lines 62-119.  The progress bar, the timing texts and [time.sleep(1)]
    change nothing in the frame and are left out. *)
Definition process_addresses (df : DataFrame)
  (regions_list : list (string * GeoDataFrame)) : result DataFrame :=
  let* state := setup_columns regions_list (df, []) in
  let df := setitem "in_region" (VBool false) (fst state) in
  process_rows regions_list 0 (iterrows df) df.

(** The names [all_columns] holds after line 76, when no prefix raised. *)
Fixpoint all_columns (regions_list : list (string * GeoDataFrame))
  : result (list string) :=
  match regions_list with
  | [] => Ok []
  | (file_path, regions) :: rest =>
      let* prefix := prefix_of file_path in
      let* others := all_columns rest in
      Ok (map (namespaced prefix) (filter not_geometry (gdf_columns regions))
          ++ others)
  end.

(** Lines 215-218 of [app.py]: every path found is read with
    [gpd.read_file]. *)
Definition load_regions (read_file : string -> GeoDataFrame)
  (shapefile_paths : list string) : list (string * GeoDataFrame) :=
  map (fun shapefile_path => (shapefile_path, read_file shapefile_path))
      shapefile_paths.

(** ** Notions the properties are stated with *)

(** The frame after [df[name] = None] for each of the names in turn. *)
Definition create_columns (names : list string) (df : DataFrame) : DataFrame :=
  fold_left (fun frame name => setitem name VNone frame) names df.

(** The frame the loop starts from (lines 65-78): the region columns,
    then the flag. *)
Definition prepared (cols : list string) (df : DataFrame) : DataFrame :=
  setitem "in_region" (VBool false) (create_columns cols df).

(** No name occurs twice. *)
Fixpoint distinct (names : list string) : bool :=
  match names with
  | [] => true
  | name :: rest => negb (existsb (String.eqb name) rest) && distinct rest
  end.

(** Every path of the list holds the marker segment. *)
Definition markers_present (regions_list : list (string * GeoDataFrame))
  : bool :=
  forallb (fun fr => has_marker (fst fr)) regions_list.

(** No row of the shapefile, as the matcher sees it after [reconcile],
    holds the point. *)
Definition nowhere_in (point : Point) (regions : GeoDataFrame) : bool :=
  forallb (fun region => negb (within point (geometry region)))
          (regions_rows (reconcile regions)).

(** An entry [(k, v)] is justified when [v] is an item of a row that holds
    the point, in a shapefile of the list, and [k] its namespaced key. *)
Definition justified (point : Point)
  (regions_list : list (string * GeoDataFrame)) (k : string) (v : value)
  : Prop :=
  exists file_path regions prefix region key,
    In (file_path, regions) regions_list
    /\ prefix_of file_path = Ok prefix
    /\ In region (regions_rows (reconcile regions))
    /\ within point (geometry region) = true
    /\ In (key, v) (to_dict (reconcile regions) region)
    /\ key <> "geometry"
    /\ k = namespaced prefix key.

(** Whether the matcher returns something for an address. *)
Definition is_matched (regions_list : list (string * GeoDataFrame))
  (address : value) : bool :=
  match check_address_in_region address regions_list with
  | Ok region_data => truthy region_data
  | Raise _ => false
  end.

End Engine.


Arguments VNone {Geometry}.
Arguments VNaN {Geometry}.
Arguments VBool {Geometry} b.
Arguments VInt {Geometry} n.
Arguments VStr {Geometry} s.
Arguments NoLocation {Coord}.
Arguments GeocoderRaises {Coord}.

Arguments VNone {Geometry}.
Arguments VNaN {Geometry}.
Arguments VBool {Geometry} b.
Arguments VInt {Geometry} n.
Arguments VStr {Geometry} s.
Arguments NoLocation {Coord}.
Arguments GeocoderRaises {Coord}.

(** ** The command-line script, [check_address_in_region.py] *)

Module Cli.

Section Script.

Variable Geometry : Type.
Variable Coord : Type.
Variable geocode : value Geometry -> geocoded Coord.
Variable within : Point Coord -> Geometry -> bool.
Variable reproject : CRS -> CRS -> Geometry -> Geometry.

(** Lines 44-48: the first row whose geometry holds the point is returned. *)
Fixpoint first_within (point : Point Coord) (regions : GeoDataFrame Geometry)
  (rows : list (Region Geometry)) : option (Py.dict (value Geometry)) :=
  match rows with
  | [] => None
  | region :: rest =>
      if within point (geometry region)
      then Some (to_dict regions region)
      else first_within point regions rest
  end.

(** Lines 20-48. *)
Definition check_address_in_region (address : value Geometry)
  (regions : GeoDataFrame Geometry) : option (Py.dict (value Geometry)) :=
  match get_coordinates geocode address with
  | None => None
  | Some point =>
      let regions := reconcile reproject regions in
      first_within point regions (regions_rows regions)
  end.

(** Lines 82-83: [df.at[idx, f'region_{col}'] = region_data[col]]. *)
Fixpoint copy_columns (idx : nat) (region_columns : list string)
  (region_data : Py.dict (value Geometry)) (df : DataFrame Geometry)
  : result (DataFrame Geometry) :=
  match region_columns with
  | [] => Ok df
  | col :: rest =>
      match Py.dict_get col region_data with
      | None => Raise KeyError
      | Some v =>
          copy_columns idx rest region_data (at_set idx ("region_" ++ col) v df)
      end
  end.

(** Lines 78-83. *)
Definition process_row (regions : GeoDataFrame Geometry)
  (region_columns : list string) (idx : nat) (row : Series Geometry)
  (df : DataFrame Geometry) : result (DataFrame Geometry) :=
  let* address := series_get row "address" in
  let region_data := check_address_in_region address regions in
  if truthy region_data then
    copy_columns idx region_columns (items region_data)
      (at_set idx "in_region" (VBool true) df)
  else Ok df.

Fixpoint process_rows (regions : GeoDataFrame Geometry)
  (region_columns : list string) (idx : nat) (rows : list (Series Geometry))
  (df : DataFrame Geometry) : result (DataFrame Geometry) :=
  match rows with
  | [] => Ok df
  | row :: rest =>
      let* df' := process_row regions region_columns idx row df in
      process_rows regions region_columns (S idx) rest df'
  end.

(** Lines 59-86, from the frame [pd.read_csv] returned and the regions
    [gpd.read_file] returned to the frame that is written out. *)
Definition process_addresses (df : DataFrame Geometry)
  (regions : GeoDataFrame Geometry) : result (DataFrame Geometry) :=
  if negb (has_column "address" df) then Raise ValueError
  else
    let region_columns := filter not_geometry (gdf_columns regions) in
    let df :=
      fold_left (fun frame col => setitem ("region_" ++ col) VNone frame)
                region_columns df in
    let df := setitem "in_region" (VBool false) df in
    process_rows regions region_columns 0 (iterrows df) df.

End Script.

End Cli.

(** ** A small world to run the program in

    Coordinates are integers, a geometry is the list of the grid points it
    holds, and the geocoder knows three addresses. *)

Module Toy.

Definition Geometry : Type := list (Z * Z).

Definition within (p : Point Z) (g : Geometry) : bool :=
  existsb (fun q => Z.eqb (px p) (fst q) && Z.eqb (py p) (snd q)) g.

Definition geocode (address : value Geometry) : geocoded Z :=
  match address with
  | VStr "A" => Location 1%Z 1%Z
  | VStr "B" => Location 5%Z 5%Z
  | VStr "C" => GeocoderRaises
  | _ => NoLocation
  end.

Definition reproject (source target : CRS) (g : Geometry) : Geometry := g.

Definition check := check_address_in_region geocode within reproject.

Definition run := process_addresses geocode within reproject.

(** Two regions that both hold the point of address "A". *)
Definition west : Region Geometry :=
  mkRegion [(1, 1); (1, 2)]%Z [VStr "west"; VInt 7].

Definition east : Region Geometry :=
  mkRegion [(1, 1); (2, 1)]%Z [VStr "east"; VInt 8].

Definition zones : GeoDataFrame Geometry :=
  mkGeoDataFrame "EPSG:4326" ["name"; "zone_id"] [west; east].

(** A region away from every address. *)
Definition far : GeoDataFrame Geometry :=
  mkGeoDataFrame "EPSG:4326" ["name"]
    [mkRegion [(9, 9)]%Z [VStr "far"]].

Definition addresses (l : list string) : DataFrame Geometry :=
  mkDataFrame (List.length l) [("address", map VStr l)].


(** Two shapefiles whose namespaced column names coincide although their
    prefixes differ. *)
Definition layer_a : GeoDataFrame Geometry :=
  mkGeoDataFrame "EPSG:4326" ["b_c"] [mkRegion [(1, 1)]%Z [VStr "first"]].

Definition layer_a_b : GeoDataFrame Geometry :=
  mkGeoDataFrame "EPSG:4326" ["c"] [mkRegion [(1, 1)]%Z [VStr "second"]].

(** One zone around the point of address "A", with [zone_id] "7". *)
Definition zone_seven : GeoDataFrame Geometry :=
  mkGeoDataFrame "EPSG:4326" ["zone_id"] [mkRegion [(1, 1)]%Z [VStr "7"]].

(** A shapefile named [in.shp] with an attribute named [region]. *)
Definition layer_in : GeoDataFrame Geometry :=
  mkGeoDataFrame "EPSG:4326" ["region"] [mkRegion [(1, 1)]%Z [VStr "north"]].

End Toy.

(** ** The rest of the two programs *)

(** [s.rsplit(sep, 1)] for a one-character [sep]: the text before the last
    [sep] and the text after it, when there is one. *)
Fixpoint rsplit_once (sep : ascii) (s : string) : option (string * string) :=
  match s with
  | EmptyString => None
  | String c s' =>
      match rsplit_once sep s' with
      | Some (before, after) => Some (String c before, after)
      | None => if Ascii.eqb c sep then Some (EmptyString, s') else None
      end
  end.

Definition rsplit1 (sep : ascii) (s : string) : list string :=
  match rsplit_once sep s with
  | Some (before, after) => [before; after]
  | None => [s]
  end.

(** [check_address_in_region.py], line 89:
    [output_path = csv_path.rsplit('.', 1)[0] + '_with_regions.csv']. *)
Definition output_path (csv_path : string) : string :=
  (hd EmptyString (rsplit1 "."%char csv_path) ++ "_with_regions.csv")%string.

Section Summary.

Variable Geometry : Type.

(** [Series.sum()] of a column of booleans: the number of [True].  A column
    with a cell of another kind is outside what is modelled ([None]). *)
Fixpoint series_sum (column : list (value Geometry)) : option nat :=
  match column with
  | [] => Some 0
  | VBool b :: rest =>
      match series_sum rest with
      | Some n => Some ((if b then 1 else 0) + n)
      | None => None
      end
  | _ :: _ => None
  end.

(** The three numbers of the summary: [len(df)], [df['in_region'].sum()]
    and [len(df) - df['in_region'].sum()] ([app.py], lines 251-255;
    [check_address_in_region.py], lines 95-97). *)
Record MatchReport : Type := mkMatchReport {
  total : nat;
  found : nat;
  not_found : Z
}.

(** [None] when the frame has no column [in_region] (a [KeyError]) or when
    its sum is not modelled. *)
Definition summary (result_df : DataFrame Geometry) : option MatchReport :=
  match Py.dict_get "in_region" (df_data result_df) with
  | None => None
  | Some column =>
      match series_sum column with
      | None => None
      | Some n =>
          Some (mkMatchReport (df_len result_df) n
                  (Z.of_nat (df_len result_df) - Z.of_nat n))
      end
  end.

(** Every row of the shapefile has a cell for every attribute column, as
    the rows of a [GeoDataFrame] do. *)
Definition rows_complete (regions : GeoDataFrame Geometry) : bool :=
  forallb (fun region =>
             Nat.leb (List.length (attribute_columns regions))
                     (List.length (attributes region)))
          (regions_rows regions).

End Summary.

(** * Properties *)

Unset Implicit Arguments.
Set Default Proof Using "Type".

(** ** Strings *)

Lemma append_assoc (a b c : string) :
  ((a ++ b) ++ c = a ++ (b ++ c))%string.
Proof.
  induction a as [|x a IH]; simpl; [reflexivity|].
  now rewrite IH.
Qed.

Lemma append_inv_head (a b c : string) :
  (a ++ b = a ++ c)%string -> b = c.
Proof.
  induction a as [|x a IH]; simpl; intros H; [exact H|].
  injection H as H. auto.
Qed.

Lemma contains_cons (sub : string) (c : ascii) (s : string) :
  Py.contains sub (String c s) = false ->
  String.prefix sub (String c s) = false /\ Py.contains sub s = false.
Proof.
  cbn [Py.contains]. intros H. apply orb_false_iff in H. exact H.
Qed.

Lemma prefix_nil (s : string) : String.prefix "" s = true.
Proof. destruct s; reflexivity. Qed.

Lemma contains_middle (a b : string) :
  Py.contains "_" (a ++ "_" ++ b)%string = true.
Proof.
  induction a as [|x a IH].
  - destruct b; reflexivity.
  - change ((String x a) ++ "_" ++ b)%string
      with (String x (a ++ "_" ++ b)%string).
    cbn [Py.contains]. rewrite IH. apply orb_true_r.
Qed.

Lemma underscore_head (s : string) : Py.contains "_" (String "_" s) = true.
Proof. destruct s; reflexivity. Qed.

(** Two underscore-free heads followed by an underscore: equal strings
    split at the same place. *)
Lemma append_underscore_split (s1 s2 r1 r2 : string) :
  Py.contains "_" s1 = false ->
  Py.contains "_" s2 = false ->
  (s1 ++ "_" ++ r1 = s2 ++ "_" ++ r2)%string ->
  s1 = s2 /\ r1 = r2.
Proof.
  revert s2. induction s1 as [|c1 s1 IH]; intros [|c2 s2] H1 H2 E.
  - simpl in E. injection E as E. auto.
  - simpl in E. injection E as Ec E. subst c2.
    rewrite underscore_head in H2. discriminate.
  - simpl in E. injection E as Ec E. subst c1.
    rewrite underscore_head in H1. discriminate.
  - simpl in E. injection E as Ec E. subst c2.
    apply contains_cons in H1. apply contains_cons in H2.
    destruct (IH s2 (proj2 H1) (proj2 H2) E) as [-> ->]. auto.
Qed.

Lemma join_cons2 (sep x y : string) (l : list string) :
  Py.join sep (x :: y :: l) = (x ++ sep ++ Py.join sep (y :: l))%string.
Proof. reflexivity. Qed.

(** [str.join] with "_" is injective on non-empty lists of underscore-free
    segments. *)
Lemma join_injective (l1 l2 : list string) :
  l1 <> [] -> l2 <> [] ->
  forallb no_underscore l1 = true ->
  forallb no_underscore l2 = true ->
  Py.join "_" l1 = Py.join "_" l2 ->
  l1 = l2.
Proof.
  revert l2. induction l1 as [|x l1 IH]; intros l2 N1 N2 U1 U2 E;
    [congruence|].
  destruct l2 as [|y l2]; [congruence|].
  cbn [forallb] in U1, U2.
  apply andb_true_iff in U1 as [Ux U1]. apply andb_true_iff in U2 as [Uy U2].
  unfold no_underscore in Ux, Uy. apply negb_true_iff in Ux, Uy.
  destruct l1 as [|x' l1], l2 as [|y' l2].
  - simpl in E. now subst.
  - rewrite join_cons2 in E. cbn [Py.join] in E. subst x.
    rewrite contains_middle in Ux. discriminate.
  - rewrite join_cons2 in E. cbn [Py.join] in E. subst y.
    rewrite contains_middle in Uy. discriminate.
  - rewrite !join_cons2 in E.
    destruct (append_underscore_split _ _ _ _ Ux Uy E) as [-> E'].
    f_equal. apply IH; auto; discriminate.
Qed.

(** An occurrence of ".shp" cannot start inside [s] and end inside a
    ".shp" appended to it. *)
Lemma prefix_shp_straddle (s : string) :
  String.prefix ".shp" s = false ->
  String.prefix ".shp" (s ++ ".shp")%string = true ->
  s = "".
Proof.
  destruct s as [|c1 [|c2 [|c3 [|c4 s]]]]; [reflexivity| | | |];
    cbn [String.prefix String.append]; intros H1 H2; exfalso;
    repeat match type of H2 with
           | context [ascii_dec ?a ?b] =>
               destruct (ascii_dec a b); try discriminate; subst
           end;
    try discriminate.
  rewrite prefix_nil in H1. discriminate.
Qed.

Lemma replace_from_keep (old new : string) (c : ascii) (s : string) :
  String.prefix old (String c s) = false ->
  Py.replace_from 0 old new (String c s)
  = String c (Py.replace_from 0 old new s).
Proof.
  intros H. cbn [Py.replace_from]. now rewrite H.
Qed.

(** The extension is stripped and nothing else changes when ".shp" occurs
    nowhere in the stem. *)
Lemma replace_shp_stem (stem : string) :
  Py.contains ".shp" stem = false ->
  Py.replace ".shp" "" (stem ++ ".shp")%string = stem.
Proof.
  unfold Py.replace. induction stem as [|c stem IH]; intros H.
  - reflexivity.
  - apply contains_cons in H as [Hp Hc].
    change (String c stem ++ ".shp")%string
      with (String c (stem ++ ".shp")%string).
    rewrite replace_from_keep.
    + now rewrite IH.
    + destruct (String.prefix ".shp" (String c (stem ++ ".shp")%string)) eqn:E;
        [|reflexivity].
      apply (prefix_shp_straddle (String c stem) Hp) in E. discriminate.
Qed.

(** ** Paths and prefixes *)

Lemma index_split (x : string) (l : list string) (i : nat) :
  Py.index x l = Some i ->
  l = firstn i l ++ x :: skipn (i + 1) l.
Proof.
  revert i. induction l as [|y l IH]; intros i H; simpl in H; [discriminate|].
  destruct (String.eqb_spec y x) as [->|Hne].
  - injection H as <-. reflexivity.
  - destruct (Py.index x l) as [j|] eqn:E; [|discriminate].
    injection H as <-. simpl. f_equal. now apply IH.
Qed.

Lemma index_some_in (x : string) (l : list string) :
  In x l -> exists i, Py.index x l = Some i.
Proof.
  induction l as [|y l IH]; intros H; [destruct H|].
  simpl. destruct (String.eqb_spec y x) as [->|Hne]; [now exists 0|].
  destruct H as [H|H]; [congruence|].
  destruct (IH H) as [i ->]. now exists (S i).
Qed.

Lemma index_none_notin (x : string) (l : list string) :
  Py.index x l = None <-> ~ In x l.
Proof.
  split.
  - intros H Hin. destruct (index_some_in _ _ Hin) as [i E]. congruence.
  - intros H. destruct (Py.index x l) as [i|] eqn:E; [|reflexivity].
    exfalso. apply H. rewrite (index_split _ _ _ E).
    apply in_or_app. right. now left.
Qed.

Lemma prefix_of_raises (file_path : string) :
  prefix_of file_path = Raise ValueError
  <-> ~ In marker (Pathlib.parts file_path).
Proof.
  rewrite <- index_none_notin. unfold prefix_of, subpath.
  destruct (Py.index marker (Pathlib.parts file_path)); simpl;
    split; intros H; congruence.
Qed.

Lemma prefix_of_returns (file_path : string) :
  In marker (Pathlib.parts file_path) ->
  exists prefix, prefix_of file_path = Ok prefix.
Proof.
  intros H. destruct (index_some_in _ _ H) as [i E].
  unfold prefix_of, subpath. rewrite E. simpl. eauto.
Qed.

Lemma prefix_of_only_value_error (file_path : string) (e : exn) :
  prefix_of file_path = Raise e -> e = ValueError.
Proof.
  unfold prefix_of, subpath.
  destruct (Py.index marker (Pathlib.parts file_path)); simpl; congruence.
Qed.

Lemma has_marker_in (file_path : string) :
  has_marker file_path = true <-> In marker (Pathlib.parts file_path).
Proof.
  unfold has_marker. rewrite existsb_exists. split.
  - intros [x [Hin Hx]]. apply String.eqb_eq in Hx. now subst.
  - intros H. exists marker. split; [exact H | apply String.eqb_refl].
Qed.

Lemma has_marker_false (file_path : string) :
  has_marker file_path = false <-> prefix_of file_path = Raise ValueError.
Proof.
  rewrite prefix_of_raises, <- has_marker_in.
  destruct (has_marker file_path); split; congruence.
Qed.

Lemma has_marker_true (file_path : string) :
  has_marker file_path = true ->
  exists prefix, prefix_of file_path = Ok prefix.
Proof. intros H. apply prefix_of_returns. now apply has_marker_in. Qed.

Lemma join_stem_nonempty (segments : list string) (stem : string) :
  Py.join "_" segments = (stem ++ ".shp")%string -> segments <> [].
Proof. intros H ->. destruct stem; discriminate. Qed.

Lemma prefix_of_clean (file_path : string) (segments : list string)
  (stem : string) :
  subpath file_path = Ok segments ->
  Py.join "_" segments = (stem ++ ".shp")%string ->
  Py.contains ".shp" stem = false ->
  prefix_of file_path = Ok stem.
Proof.
  intros Hs Hj Hc. unfold prefix_of. rewrite Hs. simpl.
  unfold prefix_of_segments. rewrite Hj. now rewrite replace_shp_stem.
Qed.

Lemma parts_from_root_and_subpath (p q : string) (t : list string) :
  subpath p = Ok t -> subpath q = Ok t ->
  root_of p = root_of q ->
  Pathlib.parts p = Pathlib.parts q.
Proof.
  unfold subpath, root_of.
  destruct (Py.index marker (Pathlib.parts p)) as [i|] eqn:Ei; [|discriminate].
  destruct (Py.index marker (Pathlib.parts q)) as [j|] eqn:Ej; [|discriminate].
  intros Hp Hq Hr.
  rewrite (index_split _ _ _ Ei), (index_split _ _ _ Ej). congruence.
Qed.

(** C1, as amended: on dataset paths whose segments after the marker hold
    no underscore, and in which ".shp" occurs only as the extension that
    ends the file name, the prefix derivation is injective: two such paths
    with the same prefix have the same segments after the marker, and are
    the same path when they lie under the same root. *)
Theorem prefix_injective_without_underscores
  (p q : string) (tp tq : list string) (sp sq : string) :
  subpath p = Ok tp ->
  subpath q = Ok tq ->
  forallb no_underscore tp = true ->
  forallb no_underscore tq = true ->
  Py.join "_" tp = (sp ++ ".shp")%string ->
  Py.join "_" tq = (sq ++ ".shp")%string ->
  Py.contains ".shp" sp = false ->
  Py.contains ".shp" sq = false ->
  prefix_of p = prefix_of q ->
  tp = tq /\ (root_of p = root_of q -> Pathlib.parts p = Pathlib.parts q).
Proof.
  intros Hp Hq Up Uq Jp Jq Cp Cq E.
  rewrite (prefix_of_clean _ _ _ Hp Jp Cp), (prefix_of_clean _ _ _ Hq Jq Cq) in E.
  injection E as E. subst sq.
  assert (T : tp = tq).
  { apply join_injective; eauto using join_stem_nonempty. congruence. }
  split; [exact T|]. subst tq. now apply (parts_from_root_and_subpath p q tp).
Qed.

(** The theorem at two spellings of one path under [/srv/shape_files]. *)
Lemma prefix_injective_without_underscores_witness :
  subpath "/srv/shape_files/counties/ca.shp" = Ok ["counties"; "ca.shp"]
  /\ ["counties"; "ca.shp"] = ["counties"; "ca.shp"]
  /\ (root_of "/srv/shape_files/counties/ca.shp"
      = root_of "/srv//shape_files/./counties/ca.shp" ->
      Pathlib.parts "/srv/shape_files/counties/ca.shp"
      = Pathlib.parts "/srv//shape_files/./counties/ca.shp").
Proof.
  split; [reflexivity|].
  apply (prefix_injective_without_underscores
           "/srv/shape_files/counties/ca.shp"
           "/srv//shape_files/./counties/ca.shp"
           ["counties"; "ca.shp"] ["counties"; "ca.shp"]
           "counties_ca" "counties_ca"); reflexivity.
Defined.

(** C1, as stated, fails: a file [b.shp] in the folder [a] and a file
    [a_b.shp] next to that folder are distinct paths under the same root
    and get the same prefix. *)
Lemma prefix_collision :
  Pathlib.parts "/srv/shape_files/a/b.shp"
  <> Pathlib.parts "/srv/shape_files/a_b.shp"
  /\ root_of "/srv/shape_files/a/b.shp" = root_of "/srv/shape_files/a_b.shp"
  /\ prefix_of "/srv/shape_files/a/b.shp" = Ok "a_b"
  /\ prefix_of "/srv/shape_files/a_b.shp" = Ok "a_b".
Proof.
  split; [|split; [|split]]; try reflexivity.
  vm_compute. discriminate.
Qed.

(** ** Dictionaries *)

Lemma dict_get_set_same {V : Type} (k : string) (v : V) (d : Py.dict V) :
  Py.dict_get k (Py.dict_set k v d) = Some v.
Proof.
  induction d as [|[k' v'] d IH]; simpl.
  - now rewrite String.eqb_refl.
  - destruct (String.eqb k' k) eqn:E; simpl; rewrite E; auto.
Qed.

Lemma dict_get_set_other {V : Type} (k k' : string) (v : V) (d : Py.dict V) :
  k <> k' ->
  Py.dict_get k (Py.dict_set k' v d) = Py.dict_get k d.
Proof.
  intros Hne. induction d as [|[k0 v0] d IH]; simpl.
  - destruct (String.eqb_spec k' k); congruence.
  - destruct (String.eqb_spec k0 k') as [->|H0]; simpl.
    + destruct (String.eqb_spec k' k); congruence.
    + destruct (String.eqb_spec k0 k); auto.
Qed.

Lemma dict_set_not_empty {V : Type} (k : string) (v : V) (d : Py.dict V) :
  Py.dict_set k v d <> [].
Proof.
  destruct d as [|[k' v'] d]; simpl; [discriminate|].
  destruct (String.eqb k' k); discriminate.
Qed.

Lemma keys_dict_set {V : Type} (k x : string) (v : V) (d : Py.dict V) :
  In x (Py.keys (Py.dict_set k v d)) <-> x = k \/ In x (Py.keys d).
Proof.
  induction d as [|[k' v'] d IH]; simpl.
  - intuition congruence.
  - destruct (String.eqb_spec k' k) as [->|Hne]; simpl.
    + intuition congruence.
    + rewrite IH. intuition congruence.
Qed.

Lemma dict_get_in_keys {V : Type} (k : string) (d : Py.dict V) :
  In k (Py.keys d) <-> exists v, Py.dict_get k d = Some v.
Proof.
  induction d as [|[k' v'] d IH]; simpl.
  - split; [tauto | intros [v H]; discriminate].
  - destruct (String.eqb_spec k' k) as [->|Hne].
    + split; eauto.
    + rewrite <- IH. intuition congruence.
Qed.

Lemma dict_get_none_not_in {V : Type} (k : string) (d : Py.dict V) :
  Py.dict_get k d = None <-> ~ In k (Py.keys d).
Proof.
  rewrite dict_get_in_keys. destruct (Py.dict_get k d) as [v|].
  - split; [discriminate | intros H; exfalso; eauto].
  - split; [intros _ [v H]; discriminate | reflexivity].
Qed.

(** ** The matcher of [app.py] *)

Section Matcher.

Variable Geometry : Type.
Variable Coord : Type.
Variable geocode : value Geometry -> geocoded Coord.
Variable within : Point Coord -> Geometry -> bool.
Variable reproject : CRS -> CRS -> Geometry -> Geometry.

#[local] Abbreviation check :=
  (check_address_in_region geocode within reproject).
#[local] Abbreviation run := (process_addresses geocode within reproject).
#[local] Abbreviation dataset := (string * GeoDataFrame Geometry)%type.

#[local] Abbreviation nowhere := (nowhere_in within reproject).

Lemma scan_regions_nowhere (point : Point Coord) (prefix : string)
  (regions : GeoDataFrame Geometry) (combined : Py.dict (value Geometry)) :
  forallb (fun region => negb (within point (geometry region)))
          (regions_rows regions) = true ->
  scan_regions within point prefix regions combined = combined.
Proof.
  unfold scan_regions.
  generalize (regions_rows regions) as rows.
  induction rows as [|region rows IH]; simpl; intros H; [reflexivity|].
  apply andb_true_iff in H as [Hr H]. apply negb_true_iff in Hr.
  rewrite Hr. now apply IH.
Qed.

Lemma scan_datasets_nowhere (point : Point Coord)
  (regions_list : list dataset) (combined : Py.dict (value Geometry)) :
  markers_present regions_list = true ->
  forallb (fun fr => nowhere point (snd fr)) regions_list = true ->
  scan_datasets within reproject point regions_list combined = Ok combined.
Proof.
  revert combined.
  induction regions_list as [|[file_path regions] rest IH];
    intros combined Hm Hn; simpl in *; [reflexivity|].
  apply andb_true_iff in Hm as [Hm Hms].
  apply andb_true_iff in Hn as [Hn Hns].
  destruct (has_marker_true _ Hm) as [prefix ->]. simpl.
  rewrite scan_regions_nowhere by exact Hn. now apply IH.
Qed.

Lemma scan_datasets_marker_missing (point : Point Coord)
  (regions_list : list dataset) (combined : Py.dict (value Geometry)) :
  markers_present regions_list = false ->
  scan_datasets within reproject point regions_list combined
  = Raise ValueError.
Proof.
  revert combined.
  induction regions_list as [|[file_path regions] rest IH];
    intros combined Hm; simpl in *; [discriminate|].
  destruct (has_marker file_path) eqn:E.
  - destruct (has_marker_true _ E) as [prefix ->]. simpl. now apply IH.
  - apply has_marker_false in E. now rewrite E.
Qed.

Lemma setup_columns_marker_missing (regions_list : list dataset)
  (state : DataFrame Geometry * list string) :
  markers_present regions_list = false ->
  setup_columns regions_list state = Raise ValueError.
Proof.
  revert state.
  induction regions_list as [|[file_path regions] rest IH];
    intros state Hm; simpl in *; [discriminate|].
  destruct (has_marker file_path) eqn:E.
  - destruct (has_marker_true _ E) as [prefix ->]. simpl. now apply IH.
  - apply has_marker_false in E. now rewrite E.
Qed.

Lemma setup_columns_returns (regions_list : list dataset)
  (state : DataFrame Geometry * list string) :
  markers_present regions_list = true ->
  exists state', setup_columns regions_list state = Ok state'.
Proof.
  revert state.
  induction regions_list as [|[file_path regions] rest IH];
    intros state Hm; simpl in *; [eauto|].
  apply andb_true_iff in Hm as [Hm Hms].
  destruct (has_marker_true _ Hm) as [prefix ->]. simpl. now apply IH.
Qed.

(** C10.  A path without the segment [shape_files] has no prefix: the
    derivation raises [ValueError] (the failed [parts.index]).  Hence with
    such a path anywhere in [regions_list], the column setup of
    [process_addresses] raises, and so does [check_address_in_region] for
    every address the geocoder resolves. *)
Theorem marker_segment_required (regions_list : list dataset)
  (df : DataFrame Geometry) (address : value Geometry) (point : Point Coord) :
  markers_present regions_list = false ->
  get_coordinates geocode address = Some point ->
  (forall file_path, has_marker file_path = false ->
                     prefix_of file_path = Raise ValueError)
  /\ run df regions_list = Raise ValueError
  /\ check address regions_list = Raise ValueError.
Proof.
  intros Hm Hp. split; [|split].
  - intros file_path H. now apply has_marker_false.
  - unfold process_addresses.
    now rewrite setup_columns_marker_missing.
  - unfold check_address_in_region. rewrite Hp.
    now rewrite scan_datasets_marker_missing.
Qed.

(** The matcher never returns an empty [dict]. *)
Lemma check_never_empty (address : value Geometry)
  (regions_list : list dataset) :
  check address regions_list <> Ok (Some []).
Proof.
  unfold check_address_in_region.
  destruct (get_coordinates geocode address) as [point|]; [|discriminate].
  destruct (scan_datasets within reproject point regions_list [])
    as [[|kv d]|e]; simpl; discriminate.
Qed.

Lemma first_within_nowhere (point : Point Coord)
  (regions : GeoDataFrame Geometry) (rows : list (Region Geometry)) :
  forallb (fun region => negb (within point (geometry region))) rows = true ->
  Cli.first_within within point regions rows = None.
Proof.
  induction rows as [|region rows IH]; simpl; intros H; [reflexivity|].
  apply andb_true_iff in H as [Hr H]. apply negb_true_iff in Hr.
  rewrite Hr. now apply IH.
Qed.


End Matcher.

(** The concrete runs behind C10 and C4. *)

Lemma marker_segment_required_witness :
  markers_present [("/srv/shapes/zones.shp", Toy.zones)] = false
  /\ Toy.run (Toy.addresses ["A"]) [("/srv/shapes/zones.shp", Toy.zones)]
     = Raise ValueError
  /\ Toy.check (VStr "A") [("/srv/shapes/zones.shp", Toy.zones)]
     = Raise ValueError.
Proof.
  split; [reflexivity|].
  apply (marker_segment_required Toy.Geometry Z Toy.geocode Toy.within
           Toy.reproject [("/srv/shapes/zones.shp", Toy.zones)]
           (Toy.addresses ["A"]) (VStr "A") (mkPoint 1%Z 1%Z));
    reflexivity.
Defined.



(** ** Frames *)

Section FrameFacts.

Variable Geometry : Type.

#[local] Abbreviation frame := (DataFrame Geometry).
#[local] Abbreviation column := (list (value Geometry)).

Lemma has_column_in (name : string) (df : frame) :
  has_column name df = true <-> In name (columns df).
Proof.
  unfold has_column. rewrite existsb_exists. split.
  - intros [x [Hin Hx]]. apply String.eqb_eq in Hx. now subst.
  - intros H. exists name. split; [exact H | apply String.eqb_refl].
Qed.

Lemma has_column_not_in (name : string) (df : frame) :
  has_column name df = false <-> ~ In name (columns df).
Proof.
  rewrite <- has_column_in. destruct (has_column name df); split; congruence.
Qed.

(** Looking a column up after one column was rewritten where it stands. *)
Lemma dict_get_rewritten (c name : string) (g : column -> column)
  (d : list (string * column)) :
  Py.dict_get c
    (map (fun cd : string * column =>
            if String.eqb (fst cd) name then (fst cd, g (snd cd)) else cd) d)
  = if String.eqb c name then option_map g (Py.dict_get c d)
    else Py.dict_get c d.
Proof.
  induction d as [|[k data] d IH]; simpl.
  - now destruct (String.eqb c name).
  - destruct (String.eqb_spec k name) as [->|Hk]; simpl.
    + destruct (String.eqb_spec name c) as [<-|Hc].
      * now rewrite String.eqb_refl.
      * rewrite IH. destruct (String.eqb_spec c name); congruence.
    + destruct (String.eqb_spec k c) as [->|Hc].
      * destruct (String.eqb_spec c name); congruence.
      * exact IH.
Qed.

Lemma keys_rewritten (name : string) (g : column -> column)
  (d : list (string * column)) :
  map fst
    (map (fun cd : string * column =>
            if String.eqb (fst cd) name then (fst cd, g (snd cd)) else cd) d)
  = map fst d.
Proof.
  induction d as [|[k data] d IH]; simpl; [reflexivity|].
  rewrite IH. now destruct (String.eqb k name).
Qed.

Lemma dict_get_appended {V : Type} (c name : string) (x : V)
  (d : Py.dict V) :
  Py.dict_get c (d ++ [(name, x)])
  = match Py.dict_get c d with
    | Some v => Some v
    | None => if String.eqb name c then Some x else None
    end.
Proof.
  induction d as [|[k v] d IH]; simpl; [reflexivity|].
  now destruct (String.eqb k c).
Qed.

Lemma nth_error_list_set_other {A : Type} (i j : nat) (v : A) (l : list A) :
  i <> j -> nth_error (list_set j v l) i = nth_error l i.
Proof.
  revert i j. induction l as [|h t IH]; intros i j Hne;
    [now destruct j|].
  destruct j, i; simpl; auto; congruence.
Qed.

Lemma nth_error_list_set_same {A : Type} (i : nat) (v : A) (l : list A) :
  nth_error (list_set i v l) i
  = match nth_error l i with Some _ => Some v | None => None end.
Proof.
  revert i. induction l as [|h t IH]; intros [|i]; simpl; auto.
Qed.

Lemma length_list_set {A : Type} (i : nat) (v : A) (l : list A) :
  List.length (list_set i v l) = List.length l.
Proof.
  revert i. induction l as [|h t IH]; intros [|i]; simpl; auto.
Qed.

(** *** [df[name] = v] *)

Lemma df_len_setitem (name : string) (v : value Geometry) (df : frame) :
  df_len (setitem name v df) = df_len df.
Proof. unfold setitem. now destruct (has_column name df). Qed.

Lemma columns_setitem_old (name : string) (v : value Geometry) (df : frame) :
  In name (columns df) -> columns (setitem name v df) = columns df.
Proof.
  intros H. apply has_column_in in H. unfold setitem, columns. rewrite H.
  simpl. apply (keys_rewritten name (fun _ => repeat v (df_len df))).
Qed.

Lemma columns_setitem_new (name : string) (v : value Geometry) (df : frame) :
  ~ In name (columns df) -> columns (setitem name v df) = columns df ++ [name].
Proof.
  intros H. apply has_column_not_in in H. unfold setitem, columns. rewrite H.
  simpl. now rewrite map_app.
Qed.

Lemma column_setitem_other (c name : string) (v : value Geometry)
  (df : frame) :
  c <> name ->
  Py.dict_get c (df_data (setitem name v df)) = Py.dict_get c (df_data df).
Proof.
  intros Hne. unfold setitem. destruct (has_column name df); simpl.
  - rewrite (dict_get_rewritten c name (fun _ => repeat v (df_len df))).
    destruct (String.eqb_spec c name); congruence.
  - rewrite dict_get_appended.
    destruct (Py.dict_get c (df_data df)); [reflexivity|].
    destruct (String.eqb_spec name c); congruence.
Qed.

Lemma column_setitem_same (name : string) (v : value Geometry) (df : frame) :
  Py.dict_get name (df_data (setitem name v df))
  = Some (repeat v (df_len df)).
Proof.
  unfold setitem. destruct (has_column name df) eqn:E; simpl.
  - rewrite (dict_get_rewritten name name (fun _ => repeat v (df_len df))).
    rewrite String.eqb_refl.
    apply has_column_in in E. apply dict_get_in_keys in E as [data ->].
    reflexivity.
  - rewrite dict_get_appended.
    apply has_column_not_in in E. apply dict_get_none_not_in in E.
    rewrite E. now rewrite String.eqb_refl.
Qed.

Lemma columns_setitem_mono (c name : string) (v : value Geometry)
  (df : frame) :
  In c (columns df) -> In c (columns (setitem name v df)).
Proof.
  intros H. destruct (has_column name df) eqn:E.
  - apply has_column_in in E. now rewrite columns_setitem_old.
  - apply has_column_not_in in E. rewrite columns_setitem_new by exact E.
    apply in_or_app. now left.
Qed.

(** *** [df.at[idx, col] = v] *)

Lemma df_len_at_set (idx : nat) (col : string) (v : value Geometry)
  (df : frame) :
  df_len (at_set idx col v df) = df_len df.
Proof. unfold at_set. now destruct (has_column col df). Qed.

Lemma columns_at_set_old (idx : nat) (col : string) (v : value Geometry)
  (df : frame) :
  In col (columns df) -> columns (at_set idx col v df) = columns df.
Proof.
  intros H. apply has_column_in in H. unfold at_set, columns. rewrite H.
  simpl. apply (keys_rewritten col (list_set idx v)).
Qed.

Lemma columns_at_set_mono (c : string) (idx : nat) (col : string)
  (v : value Geometry) (df : frame) :
  In c (columns df) -> In c (columns (at_set idx col v df)).
Proof.
  intros H. destruct (has_column col df) eqn:E.
  - apply has_column_in in E. now rewrite columns_at_set_old.
  - unfold at_set, columns. rewrite E. simpl. rewrite map_app.
    apply in_or_app. now left.
Qed.

Lemma column_at_set_other (c : string) (idx : nat) (col : string)
  (v : value Geometry) (df : frame) :
  c <> col ->
  Py.dict_get c (df_data (at_set idx col v df)) = Py.dict_get c (df_data df).
Proof.
  intros Hne. unfold at_set. destruct (has_column col df); simpl.
  - rewrite (dict_get_rewritten c col (list_set idx v)).
    destruct (String.eqb_spec c col); congruence.
  - rewrite dict_get_appended.
    destruct (Py.dict_get c (df_data df)); [reflexivity|].
    destruct (String.eqb_spec col c); congruence.
Qed.

Lemma cell_at_set_other_column (c : string) (i idx : nat) (col : string)
  (v : value Geometry) (df : frame) :
  c <> col -> cell (at_set idx col v df) i c = cell df i c.
Proof.
  intros Hne. unfold cell. now rewrite column_at_set_other.
Qed.

Lemma cell_at_set_other_row (c : string) (i idx : nat) (col : string)
  (v : value Geometry) (df : frame) :
  i <> idx -> In c (columns df) ->
  cell (at_set idx col v df) i c = cell df i c.
Proof.
  intros Hne Hin. destruct (String.eqb_spec c col) as [->|Hc].
  - unfold cell, at_set. apply has_column_in in Hin. rewrite Hin. simpl.
    rewrite (dict_get_rewritten col col (list_set idx v)).
    rewrite String.eqb_refl.
    destruct (Py.dict_get col (df_data df)) as [data|]; simpl;
      [|reflexivity].
    now apply nth_error_list_set_other.
  - now apply cell_at_set_other_column.
Qed.

Lemma cell_at_set_same (idx : nat) (col : string) (v : value Geometry)
  (df : frame) :
  In col (columns df) ->
  cell (at_set idx col v df) idx col
  = match cell df idx col with Some _ => Some v | None => None end.
Proof.
  intros Hin. unfold cell, at_set. apply has_column_in in Hin. rewrite Hin.
  simpl. rewrite (dict_get_rewritten col col (list_set idx v)).
  rewrite String.eqb_refl.
  destruct (Py.dict_get col (df_data df)) as [data|]; simpl; [|reflexivity].
  apply nth_error_list_set_same.
Qed.

(** *** Rows *)

Lemma row_at_get (df : frame) (i : nat) (c : string) :
  Py.dict_get c (row_at df i)
  = option_map (fun data => nth i data VNaN) (Py.dict_get c (df_data df)).
Proof.
  unfold row_at. induction (df_data df) as [|[k data] d IH]; simpl;
    [reflexivity|].
  now destruct (String.eqb k c).
Qed.

Lemma row_has_column (df : frame) (i : nat) (c : string) :
  In c (columns df) -> exists v, series_get (row_at df i) c = Ok v.
Proof.
  intros H. apply dict_get_in_keys in H as [data Hd].
  unfold series_get. rewrite row_at_get. unfold columns in Hd.
  rewrite Hd. simpl. eauto.
Qed.

Lemma iterrows_split (df : frame) (i : nat) :
  i < df_len df ->
  iterrows df
  = map (row_at df) (seq 0 i)
    ++ row_at df i :: map (row_at df) (seq (S i) (df_len df - S i)).
Proof.
  intros H. unfold iterrows.
  replace (df_len df) with (i + S (df_len df - S i)) at 1 by lia.
  rewrite seq_app, map_app. simpl. reflexivity.
Qed.

End FrameFacts.

(** ** What the matcher writes *)

Lemma nodup_dict_set {V : Type} (k : string) (v : V) (d : Py.dict V) :
  NoDup (Py.keys d) -> NoDup (Py.keys (Py.dict_set k v d)).
Proof.
  induction d as [|[k' v'] d IH]; simpl; intros H.
  - constructor; [intros [] | constructor].
  - destruct (String.eqb_spec k' k) as [->|Hne]; simpl; [exact H|].
    inversion H as [|x l Hx Hl]; subst. constructor; [|auto].
    fold (Py.keys (Py.dict_set k v d)). rewrite keys_dict_set.
    intros [->|Hin]; [congruence | exact (Hx Hin)].
Qed.

Lemma dict_of_fold {V : Type} (pairs : list (string * V)) (d : Py.dict V) :
  NoDup (Py.keys d) ->
  NoDup (Py.keys (fold_left (fun acc kv => Py.dict_set (fst kv) (snd kv) acc)
                            pairs d))
  /\ forall k,
       In k (Py.keys (fold_left
                        (fun acc kv => Py.dict_set (fst kv) (snd kv) acc)
                        pairs d)) ->
       In k (Py.keys d) \/ In k (map fst pairs).
Proof.
  revert d. induction pairs as [|[k v] pairs IH]; intros d H; simpl.
  - auto.
  - destruct (IH (Py.dict_set k v d) (nodup_dict_set k v d H)) as [Hn Hk].
    split; [exact Hn|]. intros x Hx.
    destruct (Hk x Hx) as [Hin|Hin]; [|tauto].
    apply keys_dict_set in Hin as [->|Hin]; [right; now left | now left].
Qed.

Lemma nodup_dict_of {V : Type} (pairs : list (string * V)) :
  NoDup (Py.keys (Py.dict_of pairs)).
Proof. apply (dict_of_fold pairs []). constructor. Qed.

Lemma keys_dict_of {V : Type} (pairs : list (string * V)) (k : string) :
  In k (Py.keys (Py.dict_of pairs)) -> In k (map fst pairs).
Proof.
  intros H. destruct (dict_of_fold pairs [] (NoDup_nil _)) as [_ Hk].
  destruct (Hk k H) as [[]|Hin]. exact Hin.
Qed.

Section MatcherFacts.

Variable Geometry : Type.
Variable Coord : Type.
Variable geocode : value Geometry -> geocoded Coord.
Variable within : Point Coord -> Geometry -> bool.
Variable reproject : CRS -> CRS -> Geometry -> Geometry.

#[local] Abbreviation check :=
  (check_address_in_region geocode within reproject).
#[local] Abbreviation dataset := (string * GeoDataFrame Geometry)%type.
#[local] Abbreviation mapping := (Py.dict (value Geometry)).

Lemma attribute_columns_reconcile (regions : GeoDataFrame Geometry) :
  attribute_columns (reconcile reproject regions) = attribute_columns regions.
Proof.
  unfold reconcile. now destruct (negb (String.eqb (crs regions) point_crs)).
Qed.

Lemma gdf_columns_reconcile (regions : GeoDataFrame Geometry) :
  gdf_columns (reconcile reproject regions) = gdf_columns regions.
Proof. unfold gdf_columns. now rewrite attribute_columns_reconcile. Qed.

Lemma keys_to_dict (regions : GeoDataFrame Geometry)
  (region : Region Geometry) (k : string) :
  In k (Py.keys (to_dict regions region)) -> In k (gdf_columns regions).
Proof.
  intros H. apply keys_dict_of in H. rewrite map_app in H.
  unfold gdf_columns. apply in_or_app.
  apply in_app_or in H as [H|H]; [left | right; exact H].
  apply in_map_iff in H as [[k' v] [<- Hin]].
  exact (in_combine_l _ _ _ _ Hin).
Qed.

(** *** Keys *)

Lemma keys_merge_region (prefix : string) (combined region_dict : mapping)
  (k : string) :
  In k (Py.keys (merge_region prefix combined region_dict)) ->
  In k (Py.keys combined)
  \/ exists key, In key (Py.keys region_dict)
                 /\ not_geometry key = true /\ k = namespaced prefix key.
Proof.
  unfold merge_region. revert combined.
  induction region_dict as [|[key v] d IH]; intros combined H; simpl in *.
  - now left.
  - apply IH in H as [H|[key' [Hin [Hg Hk]]]].
    + destruct (not_geometry key) eqn:E; [|now left].
      apply keys_dict_set in H as [->|H]; [|now left].
      right. exists key. auto.
    + right. exists key'. auto.
Qed.

Lemma keys_merge_region_mono (prefix : string)
  (combined region_dict : mapping) (k : string) :
  In k (Py.keys combined) ->
  In k (Py.keys (merge_region prefix combined region_dict)).
Proof.
  unfold merge_region. revert combined.
  induction region_dict as [|[key v] d IH]; intros combined H; simpl;
    [exact H|].
  apply IH. destruct (not_geometry key); [|exact H].
  apply keys_dict_set. now right.
Qed.

Lemma keys_scan_regions (point : Point Coord) (prefix : string)
  (regions : GeoDataFrame Geometry) (combined : mapping) (k : string) :
  In k (Py.keys (scan_regions within point prefix regions combined)) ->
  In k (Py.keys combined)
  \/ In k (map (namespaced prefix)
               (filter not_geometry (gdf_columns regions))).
Proof.
  unfold scan_regions. generalize (regions_rows regions) as rows.
  intros rows. revert combined.
  induction rows as [|region rows IH]; intros combined H; simpl in *.
  - now left.
  - apply IH in H as [H|H]; [|now right].
    destruct (within point (geometry region)); [|now left].
    apply keys_merge_region in H as [H|[key [Hin [Hg ->]]]]; [now left|].
    right. apply in_map. apply filter_In. split; [|exact Hg].
    now apply keys_to_dict with (region := region).
Qed.

Lemma keys_scan_regions_mono (point : Point Coord) (prefix : string)
  (regions : GeoDataFrame Geometry) (combined : mapping) (k : string) :
  In k (Py.keys combined) ->
  In k (Py.keys (scan_regions within point prefix regions combined)).
Proof.
  unfold scan_regions. generalize (regions_rows regions) as rows.
  intros rows. revert combined.
  induction rows as [|region rows IH]; intros combined H; simpl; [exact H|].
  apply IH. destruct (within point (geometry region)); [|exact H].
  now apply keys_merge_region_mono.
Qed.

Lemma keys_scan_datasets (point : Point Coord) (regions_list : list dataset)
  (combined result : mapping) (cols : list string) (k : string) :
  scan_datasets within reproject point regions_list combined = Ok result ->
  all_columns regions_list = Ok cols ->
  In k (Py.keys result) ->
  In k (Py.keys combined) \/ In k cols.
Proof.
  revert combined cols.
  induction regions_list as [|[file_path regions] rest IH];
    intros combined cols Hs Hc Hk; simpl in *.
  - injection Hs as <-. now left.
  - destruct (prefix_of file_path) as [prefix|e]; [|discriminate].
    simpl in *.
    destruct (all_columns rest) as [others|e]; [|discriminate].
    simpl in Hc. injection Hc as <-.
    destruct (IH _ _ Hs eq_refl Hk) as [H|H].
    + apply keys_scan_regions in H as [H|H]; [now left|].
      right. apply in_or_app. left.
      now rewrite gdf_columns_reconcile in H.
    + right. apply in_or_app. now right.
Qed.

Lemma keys_scan_datasets_mono (point : Point Coord)
  (regions_list : list dataset) (combined result : mapping) (k : string) :
  scan_datasets within reproject point regions_list combined = Ok result ->
  In k (Py.keys combined) -> In k (Py.keys result).
Proof.
  revert combined.
  induction regions_list as [|[file_path regions] rest IH];
    intros combined Hs Hk; simpl in *.
  - now injection Hs as <-.
  - destruct (prefix_of file_path) as [prefix|e]; [|discriminate].
    simpl in Hs. apply (IH _ Hs). now apply keys_scan_regions_mono.
Qed.

(** Every key of what the matcher returns is one of the column names the
    driver sets up. *)
Lemma check_keys (address : value Geometry) (regions_list : list dataset)
  (region_data : option mapping) (cols : list string) :
  check address regions_list = Ok region_data ->
  all_columns regions_list = Ok cols ->
  forall k, In k (Py.keys (items region_data)) -> In k cols.
Proof.
  unfold check_address_in_region. intros H Hc k Hk.
  destruct (get_coordinates geocode address) as [point|].
  - destruct (scan_datasets within reproject point regions_list [])
      as [result|e] eqn:Es; [|discriminate].
    simpl in H. injection H as <-.
    destruct result as [|kv result]; [destruct Hk|].
    destruct (keys_scan_datasets _ _ _ _ _ _ Es Hc Hk) as [[]|Hin].
    exact Hin.
  - injection H as <-. destruct Hk.
Qed.

Lemma scan_datasets_returns (point : Point Coord)
  (regions_list : list dataset) (combined : mapping) :
  markers_present regions_list = true ->
  exists combined',
    scan_datasets within reproject point regions_list combined = Ok combined'.
Proof.
  revert combined.
  induction regions_list as [|[file_path regions] rest IH];
    intros combined Hm; simpl in *; [eauto|].
  apply andb_true_iff in Hm as [Hm Hms].
  destruct (has_marker_true _ Hm) as [prefix ->]. simpl. now apply IH.
Qed.

Lemma all_columns_markers (regions_list : list dataset) (cols : list string) :
  all_columns regions_list = Ok cols -> markers_present regions_list = true.
Proof.
  revert cols.
  induction regions_list as [|[file_path regions] rest IH]; intros cols H;
    simpl in *; [reflexivity|].
  destruct (has_marker file_path) eqn:E.
  - destruct (prefix_of file_path); [|discriminate].
    destruct (all_columns rest) as [others|e]; [|discriminate].
    simpl. now apply (IH others).
  - apply has_marker_false in E. rewrite E in H. discriminate.
Qed.

Lemma scan_datasets_app (point : Point Coord) (pre post : list dataset)
  (combined : mapping) :
  scan_datasets within reproject point (pre ++ post) combined
  = let* mid := scan_datasets within reproject point pre combined in
    scan_datasets within reproject point post mid.
Proof.
  revert combined.
  induction pre as [|[file_path regions] pre IH]; intros combined; simpl;
    [reflexivity|].
  destruct (prefix_of file_path) as [prefix|e]; simpl; [|reflexivity].
  apply IH.
Qed.

(** *** Values *)

Lemma namespaced_injective (prefix k1 k2 : string) :
  namespaced prefix k1 = namespaced prefix k2 -> k1 = k2.
Proof.
  unfold namespaced. intros H.
  apply append_inv_head in H. now apply (append_inv_head "_").
Qed.

Lemma existsb_eqb_false (k : string) (l : list string) :
  existsb (String.eqb k) l = false <-> ~ In k l.
Proof.
  split.
  - intros H Hin. assert (E : existsb (String.eqb k) l = true).
    { apply existsb_exists. exists k. split; [exact Hin|].
      apply String.eqb_refl. }
    congruence.
  - intros H. destruct (existsb (String.eqb k) l) eqn:E; [|reflexivity].
    apply existsb_exists in E as [x [Hin Hx]].
    apply String.eqb_eq in Hx. subst x. contradiction.
Qed.

(** After a region's entries are merged, a namespaced key holds the
    region's value for it. *)
Lemma get_merge_region (prefix : string) (combined region_dict : mapping)
  (key : string) :
  NoDup (Py.keys region_dict) ->
  Py.dict_get (namespaced prefix key)
              (merge_region prefix combined region_dict)
  = if not_geometry key then
      match Py.dict_get key region_dict with
      | Some v => Some v
      | None => Py.dict_get (namespaced prefix key) combined
      end
    else Py.dict_get (namespaced prefix key) combined.
Proof.
  unfold merge_region. revert combined.
  induction region_dict as [|[k v] d IH]; intros combined Hnd; simpl.
  - now destruct (not_geometry key).
  - inversion Hnd as [|x l Hk Hd]; subst. rewrite (IH _ Hd).
    destruct (String.eqb_spec k key) as [->|Hne].
    + destruct (not_geometry key); [|reflexivity].
      apply dict_get_none_not_in in Hk. rewrite Hk.
      apply dict_get_set_same.
    + assert (Hns : namespaced prefix key <> namespaced prefix k).
      { intros E. apply namespaced_injective in E. congruence. }
      destruct (not_geometry key); destruct (not_geometry k);
        try reflexivity; now rewrite dict_get_set_other.
Qed.

Lemma get_merge_region_other (prefix : string)
  (combined region_dict : mapping) (name : string) :
  (forall key, In key (Py.keys region_dict) -> not_geometry key = true ->
               namespaced prefix key <> name) ->
  Py.dict_get name (merge_region prefix combined region_dict)
  = Py.dict_get name combined.
Proof.
  unfold merge_region. revert combined.
  induction region_dict as [|[k v] d IH]; intros combined H; simpl;
    [reflexivity|].
  rewrite IH by (intros key Hk; apply H; now right).
  destruct (not_geometry k) eqn:E; [|reflexivity].
  apply dict_get_set_other. intros ->.
  apply (H k); [now left | exact E | reflexivity].
Qed.

Lemma scan_rows_nowhere (point : Point Coord) (prefix : string)
  (regions : GeoDataFrame Geometry) (rows : list (Region Geometry))
  (combined : mapping) :
  forallb (fun region => negb (within point (geometry region))) rows = true ->
  fold_left
    (fun acc region =>
       if within point (geometry region)
       then merge_region prefix acc (to_dict regions region) else acc)
    rows combined
  = combined.
Proof.
  induction rows as [|region rows IH]; simpl; intros H; [reflexivity|].
  apply andb_true_iff in H as [Hr H]. apply negb_true_iff in Hr.
  rewrite Hr. now apply IH.
Qed.

(** Within one shapefile the last row that holds the point decides. *)
Lemma scan_regions_last_match (point : Point Coord) (prefix : string)
  (regions : GeoDataFrame Geometry) (before after : list (Region Geometry))
  (region : Region Geometry) (combined : mapping) (key : string)
  (v : value Geometry) :
  regions_rows regions = before ++ region :: after ->
  within point (geometry region) = true ->
  forallb (fun r => negb (within point (geometry r))) after = true ->
  Py.dict_get key (to_dict regions region) = Some v ->
  not_geometry key = true ->
  Py.dict_get (namespaced prefix key)
              (scan_regions within point prefix regions combined)
  = Some v.
Proof.
  intros Hrows Hin Hafter Hget Hg. unfold scan_regions.
  rewrite Hrows, fold_left_app. simpl. rewrite Hin.
  rewrite scan_rows_nowhere by exact Hafter.
  rewrite get_merge_region by apply nodup_dict_of.
  now rewrite Hg, Hget.
Qed.

Lemma scan_regions_get_other (point : Point Coord) (prefix : string)
  (regions : GeoDataFrame Geometry) (combined : mapping) (name : string) :
  ~ In name (map (namespaced prefix)
                 (filter not_geometry (gdf_columns regions))) ->
  Py.dict_get name (scan_regions within point prefix regions combined)
  = Py.dict_get name combined.
Proof.
  intros H. unfold scan_regions. generalize (regions_rows regions) as rows.
  intros rows. revert combined.
  induction rows as [|region rows IH]; intros combined; simpl; [reflexivity|].
  rewrite IH. destruct (within point (geometry region)); [|reflexivity].
  apply get_merge_region_other. intros key Hk Hg E. apply H. subst name.
  apply in_map. apply filter_In. split; [|exact Hg].
  now apply keys_to_dict with (region := region).
Qed.

Lemma scan_datasets_get_other (point : Point Coord)
  (regions_list : list dataset) (combined result : mapping)
  (cols : list string) (name : string) :
  scan_datasets within reproject point regions_list combined = Ok result ->
  all_columns regions_list = Ok cols ->
  ~ In name cols ->
  Py.dict_get name result = Py.dict_get name combined.
Proof.
  revert combined cols.
  induction regions_list as [|[file_path regions] rest IH];
    intros combined cols Hs Hc Hn; simpl in *.
  - now injection Hs as <-.
  - destruct (prefix_of file_path) as [prefix|e]; [|discriminate].
    simpl in *.
    destruct (all_columns rest) as [others|e]; [|discriminate].
    simpl in Hc. injection Hc as <-.
    rewrite (IH _ _ Hs eq_refl) by (intros Hin; apply Hn, in_or_app; now right).
    apply scan_regions_get_other. rewrite gdf_columns_reconcile.
    intros Hin. apply Hn, in_or_app. now left.
Qed.

(** The entry of the last matching row of one shapefile of the list: its
    namespaced key is a key of the scan's result, and it holds the row's
    value unless a later shapefile has a column of the same namespaced
    name. *)
Lemma scan_datasets_last_match (point : Point Coord)
  (pre post : list dataset) (file_path : string)
  (regions : GeoDataFrame Geometry) (prefix : string)
  (before after : list (Region Geometry)) (region : Region Geometry)
  (key : string) (v : value Geometry) (combined result : mapping) :
  scan_datasets within reproject point (pre ++ (file_path, regions) :: post)
                combined = Ok result ->
  prefix_of file_path = Ok prefix ->
  regions_rows (reconcile reproject regions) = before ++ region :: after ->
  within point (geometry region) = true ->
  forallb (fun r => negb (within point (geometry r))) after = true ->
  Py.dict_get key (to_dict (reconcile reproject regions) region) = Some v ->
  not_geometry key = true ->
  In (namespaced prefix key) (Py.keys result)
  /\ (forall later,
        all_columns post = Ok later ->
        ~ In (namespaced prefix key) later ->
        Py.dict_get (namespaced prefix key) result = Some v).
Proof.
  intros Hs Hp Hrows Hin Hafter Hget Hg.
  rewrite scan_datasets_app in Hs.
  destruct (scan_datasets within reproject point pre combined)
    as [mid|e]; [|discriminate].
  simpl in Hs. rewrite Hp in Hs. simpl in Hs.
  pose proof (scan_regions_last_match point prefix _ _ _ _ mid key v
                Hrows Hin Hafter Hget Hg) as Hv.
  split.
  - apply (keys_scan_datasets_mono _ _ _ _ _ Hs).
    apply dict_get_in_keys. eauto.
  - intros later Hl Hn.
    now rewrite (scan_datasets_get_other _ _ _ _ _ _ Hs Hl Hn).
Qed.

Lemma check_of_scan (address : value Geometry) (point : Point Coord)
  (regions_list : list dataset) (result : mapping) (k : string) :
  get_coordinates geocode address = Some point ->
  scan_datasets within reproject point regions_list [] = Ok result ->
  In k (Py.keys result) ->
  check address regions_list = Ok (Some result).
Proof.
  intros Hp Hs Hk. unfold check_address_in_region. rewrite Hp, Hs. simpl.
  destruct result; [destruct Hk | reflexivity].
Qed.

Lemma first_within_first_match (point : Point Coord)
  (regions : GeoDataFrame Geometry) (before after : list (Region Geometry))
  (region : Region Geometry) :
  forallb (fun r => negb (within point (geometry r))) before = true ->
  within point (geometry region) = true ->
  Cli.first_within within point regions (before ++ region :: after)
  = Some (to_dict regions region).
Proof.
  induction before as [|r before IH]; simpl; intros Hb Hin.
  - now rewrite Hin.
  - apply andb_true_iff in Hb as [Hr Hb]. apply negb_true_iff in Hr.
    rewrite Hr. now apply IH.
Qed.

Lemma prefix_of_ok_marker (file_path prefix : string) :
  prefix_of file_path = Ok prefix -> has_marker file_path = true.
Proof.
  intros H. destruct (has_marker file_path) eqn:E; [reflexivity|].
  apply has_marker_false in E. congruence.
Qed.

Lemma check_items (address : value Geometry) (point : Point Coord)
  (regions_list : list dataset) (result : mapping) :
  get_coordinates geocode address = Some point ->
  scan_datasets within reproject point regions_list [] = Ok result ->
  exists region_data,
    check address regions_list = Ok region_data
    /\ items region_data = result.
Proof.
  intros Hp Hs. unfold check_address_in_region. rewrite Hp, Hs. simpl.
  destruct result; eauto.
Qed.



End MatcherFacts.

(** The concrete runs behind C5 and C6. *)





(** ** The batch driver of [app.py] *)

Section Driver.

Variable Geometry : Type.
Variable Coord : Type.
Variable geocode : value Geometry -> geocoded Coord.
Variable within : Point Coord -> Geometry -> bool.
Variable reproject : CRS -> CRS -> Geometry -> Geometry.

#[local] Abbreviation check :=
  (check_address_in_region geocode within reproject).
#[local] Abbreviation step := (process_row geocode within reproject).
#[local] Abbreviation loop := (process_rows geocode within reproject).
#[local] Abbreviation run := (process_addresses geocode within reproject).
#[local] Abbreviation dataset := (string * GeoDataFrame Geometry)%type.
#[local] Abbreviation frame := (DataFrame Geometry).

(** The resolver gave no point: it returned nothing or it raised. *)
Lemma get_coordinates_none (address : value Geometry) :
  geocode address = NoLocation \/ geocode address = GeocoderRaises ->
  get_coordinates geocode address = None.
Proof. unfold get_coordinates. now intros [-> | ->]. Qed.

Lemma check_unresolved (address : value Geometry)
  (regions_list : list dataset) :
  get_coordinates geocode address = None ->
  check address regions_list = Ok None.
Proof. unfold check_address_in_region. now intros ->. Qed.

Lemma check_returns (address : value Geometry) (regions_list : list dataset) :
  markers_present regions_list = true ->
  exists region_data, check address regions_list = Ok region_data.
Proof.
  intros Hm. unfold check_address_in_region.
  destruct (get_coordinates geocode address) as [point|]; [|eauto].
  destruct (scan_datasets_returns _ _ within reproject point regions_list []
              Hm) as [d ->].
  simpl. eauto.
Qed.

Lemma step_unresolved (regions_list : list dataset) (idx : nat)
  (row : Series Geometry) (address : value Geometry) (df : frame) :
  series_get row "address" = Ok address ->
  get_coordinates geocode address = None ->
  step regions_list idx row df = Ok df.
Proof.
  intros Ha Hg. unfold process_row. rewrite Ha. simpl.
  now rewrite check_unresolved.
Qed.

Lemma loop_app (regions_list : list dataset) (pre post : list (Series Geometry))
  (k : nat) (df : frame) :
  loop regions_list k (pre ++ post) df
  = let* df' := loop regions_list k pre df in
    loop regions_list (k + List.length pre) post df'.
Proof.
  revert k df. induction pre as [|row pre IH]; intros k df; simpl.
  - now rewrite Nat.add_0_r.
  - destruct (step regions_list k row df) as [df'|e]; simpl; [|reflexivity].
    rewrite IH. now rewrite Nat.add_succ_r.
Qed.

(** *** What the writes of one row leave alone *)

Lemma df_len_write_items (idx : nat) (w : Py.dict (value Geometry))
  (df : frame) :
  df_len (write_items idx w df) = df_len df.
Proof.
  unfold write_items. revert df.
  induction w as [|[c v] w IH]; intros df; simpl; [reflexivity|].
  rewrite IH. apply df_len_at_set.
Qed.

Lemma columns_write_items_mono (c : string) (idx : nat)
  (w : Py.dict (value Geometry)) (df : frame) :
  In c (columns df) -> In c (columns (write_items idx w df)).
Proof.
  unfold write_items. revert df.
  induction w as [|[col v] w IH]; intros df H; simpl; [exact H|].
  apply IH. now apply columns_at_set_mono.
Qed.

Lemma columns_write_items_old (idx : nat) (w : Py.dict (value Geometry))
  (df : frame) :
  (forall k, In k (Py.keys w) -> In k (columns df)) ->
  columns (write_items idx w df) = columns df.
Proof.
  unfold write_items. revert df.
  induction w as [|[col v] w IH]; intros df H; simpl; [reflexivity|].
  assert (Hc : columns (at_set idx col v df) = columns df).
  { apply columns_at_set_old. apply H. now left. }
  rewrite IH; [exact Hc|].
  intros k Hk. rewrite Hc. apply H. now right.
Qed.

Lemma column_write_items_other (c : string) (idx : nat)
  (w : Py.dict (value Geometry)) (df : frame) :
  ~ In c (Py.keys w) ->
  Py.dict_get c (df_data (write_items idx w df)) = Py.dict_get c (df_data df).
Proof.
  unfold write_items. revert df.
  induction w as [|[col v] w IH]; intros df H; simpl; [reflexivity|].
  simpl in H. rewrite IH by (intros Hin; apply H; now right).
  apply column_at_set_other. intros ->. apply H. now left.
Qed.

Lemma cell_write_items_other_row (c : string) (i idx : nat)
  (w : Py.dict (value Geometry)) (df : frame) :
  i <> idx -> In c (columns df) ->
  cell (write_items idx w df) i c = cell df i c.
Proof.
  intros Hne. unfold write_items. revert df.
  induction w as [|[col v] w IH]; intros df H; simpl; [reflexivity|].
  rewrite IH by now apply columns_at_set_mono.
  now apply cell_at_set_other_row.
Qed.

Lemma step_other_row (regions_list : list dataset) (c : string) (i idx : nat)
  (row : Series Geometry) (df df' : frame) :
  step regions_list idx row df = Ok df' ->
  i <> idx -> In c (columns df) ->
  cell df' i c = cell df i c /\ In c (columns df').
Proof.
  unfold process_row. intros H Hne Hin.
  destruct (series_get row "address") as [address|e]; [|discriminate].
  simpl in H.
  destruct (check address regions_list) as [region_data|e]; [|discriminate].
  simpl in H.
  destruct (truthy region_data); injection H as <-; [|auto].
  split.
  - rewrite cell_write_items_other_row by
      (auto using columns_at_set_mono).
    now apply cell_at_set_other_row.
  - now apply columns_write_items_mono, columns_at_set_mono.
Qed.

Lemma loop_other_rows (regions_list : list dataset) (c : string) (i : nat)
  (rows : list (Series Geometry)) (k : nat) (df out : frame) :
  loop regions_list k rows df = Ok out ->
  i < k \/ k + List.length rows <= i ->
  In c (columns df) ->
  cell out i c = cell df i c /\ In c (columns out).
Proof.
  revert k df. induction rows as [|row rows IH]; intros k df H Hi Hin.
  - simpl in H. injection H as <-. auto.
  - simpl in H, Hi.
    destruct (step regions_list k row df) as [df'|e] eqn:E; [|discriminate].
    simpl in H.
    destruct (step_other_row regions_list c i k row df df' E) as [Hc Hin'];
      [lia | exact Hin |].
    destruct (IH (S k) df' H) as [Hc' Hin'']; [lia | exact Hin' |].
    split; [congruence | exact Hin''].
Qed.

Lemma df_len_step (regions_list : list dataset) (idx : nat)
  (row : Series Geometry) (df df' : frame) :
  step regions_list idx row df = Ok df' -> df_len df' = df_len df.
Proof.
  unfold process_row. intros H.
  destruct (series_get row "address") as [address|e]; [|discriminate].
  simpl in H.
  destruct (check address regions_list) as [region_data|e]; [|discriminate].
  simpl in H.
  destruct (truthy region_data); injection H as <-; [|reflexivity].
  rewrite df_len_write_items. apply df_len_at_set.
Qed.

Lemma df_len_loop (regions_list : list dataset)
  (rows : list (Series Geometry)) (k : nat) (df out : frame) :
  loop regions_list k rows df = Ok out -> df_len out = df_len df.
Proof.
  revert k df. induction rows as [|row rows IH]; intros k df H; simpl in H.
  - now injection H as <-.
  - destruct (step regions_list k row df) as [df'|e] eqn:E; [|discriminate].
    simpl in H. rewrite (IH _ _ H). exact (df_len_step _ _ _ _ _ E).
Qed.

(** The loop returns when every row has an address and no prefix raises. *)
Lemma loop_returns (regions_list : list dataset)
  (rows : list (Series Geometry)) (k : nat) (df : frame) :
  markers_present regions_list = true ->
  (forall row, In row rows -> exists a, series_get row "address" = Ok a) ->
  exists out, loop regions_list k rows df = Ok out.
Proof.
  intros Hm. revert k df.
  induction rows as [|row rows IH]; intros k df Hrows; simpl; [eauto|].
  destruct (Hrows row (or_introl eq_refl)) as [address Ha].
  unfold process_row at 1. rewrite Ha. simpl.
  destruct (check_returns address regions_list Hm) as [region_data ->].
  simpl. destruct (truthy region_data); simpl; apply IH;
    intros r Hr; apply Hrows; now right.
Qed.

Lemma iterrows_have_column (df : frame) (c : string) :
  In c (columns df) ->
  forall row, In row (iterrows df) -> exists v, series_get row c = Ok v.
Proof.
  intros Hc row Hrow. unfold iterrows in Hrow.
  apply in_map_iff in Hrow as [i [<- _]]. now apply row_has_column.
Qed.

(** *** The column setup *)

Lemma df_len_create (names : list string) (df : frame) :
  df_len (create_columns names df) = df_len df.
Proof.
  unfold create_columns. revert df.
  induction names as [|n names IH]; intros df; simpl; [reflexivity|].
  rewrite IH. apply df_len_setitem.
Qed.

Lemma column_create_other (c : string) (names : list string) (df : frame) :
  ~ In c names ->
  Py.dict_get c (df_data (create_columns names df))
  = Py.dict_get c (df_data df).
Proof.
  unfold create_columns. revert df.
  induction names as [|n names IH]; intros df H; simpl; [reflexivity|].
  simpl in H. rewrite IH by (intros Hin; apply H; now right).
  apply column_setitem_other. intros ->. apply H. now left.
Qed.

Lemma column_create_in (c : string) (names : list string) (df : frame) :
  In c names ->
  Py.dict_get c (df_data (create_columns names df))
  = Some (repeat VNone (df_len df)).
Proof.
  unfold create_columns. revert df.
  induction names as [|n names IH]; intros df H; [destruct H|]. simpl.
  destruct (in_dec string_dec c names) as [Hin|Hout].
  - rewrite IH by exact Hin. now rewrite df_len_setitem.
  - destruct H as [->|H]; [|contradiction].
    fold (create_columns names (setitem c VNone df)).
    rewrite column_create_other by exact Hout.
    apply column_setitem_same.
Qed.

Lemma columns_create_mono (c : string) (names : list string) (df : frame) :
  In c (columns df) -> In c (columns (create_columns names df)).
Proof.
  unfold create_columns. revert df.
  induction names as [|n names IH]; intros df H; simpl; [exact H|].
  apply IH. now apply columns_setitem_mono.
Qed.

Lemma columns_create_fresh (names : list string) (df : frame) :
  NoDup (columns df ++ names) ->
  columns (create_columns names df) = columns df ++ names.
Proof.
  unfold create_columns. revert df.
  induction names as [|n names IH]; intros df H; simpl.
  - now rewrite app_nil_r.
  - assert (Hn : ~ In n (columns df)).
    { intros Hin. apply NoDup_remove_2 in H. apply H.
      apply in_or_app. now left. }
    rewrite IH; rewrite columns_setitem_new by exact Hn.
    + now rewrite <- app_assoc.
    + now rewrite <- app_assoc.
Qed.

Lemma add_columns_create (prefix : string) (region_columns : list string)
  (df : frame) (names : list string) :
  add_columns prefix region_columns (df, names)
  = (create_columns (map (namespaced prefix) region_columns) df,
     names ++ map (namespaced prefix) region_columns).
Proof.
  unfold add_columns, create_columns. revert df names.
  induction region_columns as [|col cols IH]; intros df names; simpl.
  - now rewrite app_nil_r.
  - rewrite IH. now rewrite <- app_assoc.
Qed.

Lemma create_columns_app (names more : list string) (df : frame) :
  create_columns (names ++ more) df
  = create_columns more (create_columns names df).
Proof. unfold create_columns. apply fold_left_app. Qed.

(** The setup returns exactly when [all_columns] does, with the columns
    created in that order. *)
Lemma setup_columns_create (regions_list : list dataset) (df : frame)
  (names : list string) :
  setup_columns regions_list (df, names)
  = let* cols := all_columns regions_list in
    Ok (create_columns cols df, names ++ cols).
Proof.
  revert df names.
  induction regions_list as [|[file_path regions] rest IH];
    intros df names; simpl.
  - now rewrite app_nil_r.
  - destruct (prefix_of file_path) as [prefix|e]; simpl; [|reflexivity].
    rewrite add_columns_create, IH.
    destruct (all_columns rest) as [others|e]; simpl; [|reflexivity].
    now rewrite create_columns_app, app_assoc.
Qed.

Lemma all_columns_returns (regions_list : list dataset) :
  markers_present regions_list = true ->
  exists cols, all_columns regions_list = Ok cols.
Proof.
  induction regions_list as [|[file_path regions] rest IH]; simpl; [eauto|].
  intros Hm. apply andb_true_iff in Hm as [Hm Hms].
  destruct (has_marker_true _ Hm) as [prefix ->].
  destruct (IH Hms) as [others ->]. simpl. eauto.
Qed.

Lemma all_columns_underscore (regions_list : list dataset)
  (cols : list string) :
  all_columns regions_list = Ok cols ->
  forall c, In c cols -> Py.contains "_" c = true.
Proof.
  revert cols.
  induction regions_list as [|[file_path regions] rest IH];
    intros cols H c Hc; simpl in H.
  - injection H as <-. destruct Hc.
  - destruct (prefix_of file_path) as [prefix|e]; [|discriminate].
    destruct (all_columns rest) as [others|e]; [|discriminate].
    simpl in H. injection H as <-.
    apply in_app_or in Hc as [Hc|Hc]; [|now apply (IH others)].
    apply in_map_iff in Hc as [col [<- _]]. apply contains_middle.
Qed.

Lemma cell_setitem_same (name : string) (v : value Geometry) (df : frame)
  (i : nat) :
  i < df_len df -> cell (setitem name v df) i name = Some v.
Proof.
  intros H. unfold cell. rewrite column_setitem_same.
  now apply nth_error_repeat.
Qed.

Lemma run_unfold (df : frame) (regions_list : list dataset) :
  run df regions_list
  = let* cols := all_columns regions_list in
    loop regions_list 0 (iterrows (prepared cols df)) (prepared cols df).
Proof.
  unfold process_addresses. rewrite setup_columns_create.
  now destruct (all_columns regions_list).
Qed.

Lemma df_len_prepared (cols : list string) (df : frame) :
  df_len (prepared cols df) = df_len df.
Proof. unfold prepared. now rewrite df_len_setitem, df_len_create. Qed.

(** A column whose name holds no underscore, and is not the flag, is the
    same before and after the setup. *)
Lemma column_prepared_other (c : string) (cols : list string) (df : frame) :
  ~ In c cols -> c <> "in_region" ->
  Py.dict_get c (df_data (prepared cols df)) = Py.dict_get c (df_data df).
Proof.
  intros Hc Hf. unfold prepared.
  rewrite column_setitem_other by exact Hf.
  now apply column_create_other.
Qed.

Lemma address_not_region_column (regions_list : list dataset)
  (cols : list string) :
  all_columns regions_list = Ok cols -> ~ In "address" cols.
Proof.
  intros H Hin. apply (all_columns_underscore _ _ H) in Hin. discriminate.
Qed.

Lemma address_prepared (regions_list : list dataset) (cols : list string)
  (df : frame) (i : nat) :
  all_columns regions_list = Ok cols ->
  series_get (row_at (prepared cols df) i) "address"
  = series_get (row_at df i) "address".
Proof.
  intros H. unfold series_get. rewrite !row_at_get.
  rewrite column_prepared_other;
    [reflexivity | now apply (address_not_region_column regions_list)
    | discriminate].
Qed.

Lemma columns_prepared_mono (c : string) (cols : list string) (df : frame) :
  In c (columns df) -> In c (columns (prepared cols df)).
Proof.
  intros H. unfold prepared.
  now apply columns_setitem_mono, columns_create_mono.
Qed.

Lemma series_get_column (df : frame) (i : nat) (c : string)
  (v : value Geometry) :
  series_get (row_at df i) c = Ok v -> In c (columns df).
Proof.
  unfold series_get. rewrite row_at_get. intros H.
  apply dict_get_in_keys.
  destruct (Py.dict_get c (df_data df)) as [data|]; [eauto|discriminate].
Qed.

(** With the address column there and every marker present, the batch
    returns a frame, whatever the geocoder does. *)
Lemma run_returns (df : frame) (regions_list : list dataset) :
  markers_present regions_list = true ->
  In "address" (columns df) ->
  exists out, run df regions_list = Ok out.
Proof.
  intros Hm Ha. rewrite run_unfold.
  destruct (all_columns_returns regions_list Hm) as [cols ->]. simpl.
  apply loop_returns; [exact Hm|].
  apply iterrows_have_column. now apply columns_prepared_mono.
Qed.

Lemma check_no_datasets (address : value Geometry) :
  check address [] = Ok None.
Proof.
  unfold check_address_in_region.
  now destruct (get_coordinates geocode address).
Qed.

Lemma loop_unmatched (regions_list : list dataset)
  (rows : list (Series Geometry)) (k : nat) (df : frame) :
  (forall row, In row rows ->
     exists address region_data,
       series_get row "address" = Ok address
       /\ check address regions_list = Ok region_data
       /\ truthy region_data = false) ->
  loop regions_list k rows df = Ok df.
Proof.
  revert k. induction rows as [|row rows IH]; intros k H; simpl;
    [reflexivity|].
  destruct (H row (or_introl eq_refl)) as [address [rd [Ha [Hc Ht]]]].
  unfold process_row at 1. rewrite Ha. simpl. rewrite Hc. simpl.
  rewrite Ht. simpl. apply IH. intros r Hr. apply H. now right.
Qed.

(** C2, as amended: with no shapefile loaded the batch does not fail.  It
    returns the input table with the flag column added, false in every row,
    and no region column.  That is so whichever way [find_shapefiles] came
    to return no path: no directory, no [.shp] file in it, or an exception
    during the search. *)
Theorem no_datasets_not_fatal (df : frame) :
  has_column "address" df = true ->
  run df [] = Ok (setitem "in_region" (VBool false) df)
  /\ df_len (setitem "in_region" (VBool false) df) = df_len df
  /\ (forall i, i < df_len df ->
        cell (setitem "in_region" (VBool false) df) i "in_region"
        = Some (VBool false))
  /\ (has_column "in_region" df = false ->
      columns (setitem "in_region" (VBool false) df)
      = columns df ++ ["in_region"])
  /\ (forall read_file found,
        found = NoDirectory \/ found = Files [] \/ found = ListingRaises ->
        run df (load_regions read_file (find_shapefiles found))
        = Ok (setitem "in_region" (VBool false) df)).
Proof.
  intros Ha. apply has_column_in in Ha.
  assert (Hrun : run df [] = Ok (setitem "in_region" (VBool false) df));
    [|split; [exact Hrun|]; split; [|split; [|split]]].
  - rewrite run_unfold. simpl. unfold prepared, create_columns. simpl.
    apply loop_unmatched. intros row Hrow.
    destruct (iterrows_have_column _ "address"
                (columns_setitem_mono _ _ _ _ _ Ha) row Hrow) as [a Hget].
    exists a, None. auto using check_no_datasets.
  - apply df_len_setitem.
  - intros i Hi. now apply cell_setitem_same.
  - intros H. apply columns_setitem_new. now apply has_column_not_in.
  - intros read_file found [-> | [-> | ->]]; exact Hrun.
Qed.


(** *** The loop writes only into the region columns and the flag *)

Lemma step_columns (regions_list : list dataset) (cols : list string)
  (idx : nat) (row : Series Geometry) (df df' : frame) :
  step regions_list idx row df = Ok df' ->
  all_columns regions_list = Ok cols ->
  (forall c, In c cols -> In c (columns df)) ->
  In "in_region" (columns df) ->
  columns df' = columns df.
Proof.
  unfold process_row. intros H Hcols Hsub Hflag.
  destruct (series_get row "address") as [address|e]; [|discriminate].
  simpl in H.
  destruct (check address regions_list) as [region_data|e] eqn:Ec;
    [|discriminate].
  simpl in H.
  destruct (truthy region_data); injection H as <-; [|reflexivity].
  assert (Hf : columns (at_set idx "in_region" (VBool true) df) = columns df)
    by now apply columns_at_set_old.
  rewrite columns_write_items_old; [exact Hf|].
  intros k Hk. rewrite Hf. apply Hsub.
  exact (check_keys _ _ geocode within reproject _ _ _ _ Ec Hcols k Hk).
Qed.

Lemma loop_columns (regions_list : list dataset) (cols : list string)
  (rows : list (Series Geometry)) (k : nat) (df out : frame) :
  loop regions_list k rows df = Ok out ->
  all_columns regions_list = Ok cols ->
  (forall c, In c cols -> In c (columns df)) ->
  In "in_region" (columns df) ->
  columns out = columns df.
Proof.
  revert k df. induction rows as [|row rows IH];
    intros k df H Hcols Hsub Hflag; simpl in H.
  - now injection H as <-.
  - destruct (step regions_list k row df) as [df'|e] eqn:E; [|discriminate].
    simpl in H.
    pose proof (step_columns _ _ _ _ _ _ E Hcols Hsub Hflag) as Hc.
    rewrite (IH _ _ H Hcols); rewrite Hc; auto.
Qed.

Lemma step_column_other (regions_list : list dataset) (cols : list string)
  (c : string) (idx : nat) (row : Series Geometry) (df df' : frame) :
  step regions_list idx row df = Ok df' ->
  all_columns regions_list = Ok cols ->
  ~ In c cols -> c <> "in_region" ->
  Py.dict_get c (df_data df') = Py.dict_get c (df_data df).
Proof.
  unfold process_row. intros H Hcols Hc Hf.
  destruct (series_get row "address") as [address|e]; [|discriminate].
  simpl in H.
  destruct (check address regions_list) as [region_data|e] eqn:Ec;
    [|discriminate].
  simpl in H.
  destruct (truthy region_data); injection H as <-; [|reflexivity].
  rewrite column_write_items_other.
  - now apply column_at_set_other.
  - intros Hk. apply Hc.
    exact (check_keys _ _ geocode within reproject _ _ _ _ Ec Hcols c Hk).
Qed.

Lemma loop_column_other (regions_list : list dataset) (cols : list string)
  (c : string) (rows : list (Series Geometry)) (k : nat) (df out : frame) :
  loop regions_list k rows df = Ok out ->
  all_columns regions_list = Ok cols ->
  ~ In c cols -> c <> "in_region" ->
  Py.dict_get c (df_data out) = Py.dict_get c (df_data df).
Proof.
  revert k df. induction rows as [|row rows IH];
    intros k df H Hcols Hc Hf; simpl in H.
  - now injection H as <-.
  - destruct (step regions_list k row df) as [df'|e] eqn:E; [|discriminate].
    simpl in H. rewrite (IH _ _ H Hcols Hc Hf).
    exact (step_column_other _ _ _ _ _ _ _ E Hcols Hc Hf).
Qed.

(** *** The cells of one record after the batch *)

Lemma flag_prepared (cols : list string) (df : frame) :
  In "in_region" (columns (prepared cols df)).
Proof.
  apply dict_get_in_keys. unfold prepared.
  rewrite column_setitem_same. eauto.
Qed.

Lemma cell_prepared_flag (cols : list string) (df : frame) (i : nat) :
  i < df_len df ->
  cell (prepared cols df) i "in_region" = Some (VBool false).
Proof.
  intros H. unfold prepared. apply cell_setitem_same.
  now rewrite df_len_create.
Qed.

Lemma cell_prepared_region (cols : list string) (df : frame) (i : nat)
  (c : string) :
  i < df_len df -> In c cols -> c <> "in_region" ->
  cell (prepared cols df) i c = Some VNone.
Proof.
  intros Hi Hc Hf. unfold cell, prepared.
  rewrite column_setitem_other by exact Hf.
  rewrite column_create_in by exact Hc.
  now apply nth_error_repeat.
Qed.

(** The flag of record [i] says whether the matcher returned something for
    its address, and the region cells of an unmatched record are [None];
    this needs no region column to be named [in_region]. *)
Lemma run_record (df out : frame) (regions_list : list dataset)
  (cols : list string) (i : nat) (address : value Geometry)
  (region_data : option (Py.dict (value Geometry))) :
  all_columns regions_list = Ok cols ->
  ~ In "in_region" cols ->
  i < df_len df ->
  series_get (row_at df i) "address" = Ok address ->
  check address regions_list = Ok region_data ->
  run df regions_list = Ok out ->
  cell out i "in_region" = Some (VBool (truthy region_data))
  /\ (truthy region_data = false ->
      forall c, In c cols -> cell out i c = Some VNone).
Proof.
  intros Hcols Hflag Hi Ha Hc Hrun.
  rewrite run_unfold, Hcols in Hrun. simpl in Hrun.
  rewrite (iterrows_split _ (prepared cols df) i) in Hrun
    by (rewrite df_len_prepared; exact Hi).
  rewrite loop_app in Hrun.
  destruct (loop regions_list 0 (map (row_at (prepared cols df)) (seq 0 i))
              (prepared cols df)) as [mid|e] eqn:Epre; [|discriminate].
  simpl in Hrun. rewrite length_map, length_seq in Hrun.
  destruct (step regions_list i (row_at (prepared cols df) i) mid)
    as [mid'|e] eqn:Estep; [|discriminate].
  simpl in Hrun.
  assert (Before : forall c, In c (columns (prepared cols df)) ->
                     cell mid i c = cell (prepared cols df) i c
                     /\ In c (columns mid)).
  { intros c Hin.
    apply (loop_other_rows regions_list c i _ _ _ _ Epre); [|exact Hin].
    right. rewrite length_map, length_seq. lia. }
  unfold process_row in Estep.
  rewrite (address_prepared regions_list cols df i Hcols), Ha in Estep.
  simpl in Estep. rewrite Hc in Estep. simpl in Estep.
  destruct (Before "in_region" (flag_prepared cols df)) as [Hf Hfin].
  rewrite cell_prepared_flag in Hf by exact Hi.
  split.
  - assert (Hmid' : cell mid' i "in_region" = Some (VBool (truthy region_data))
                    /\ In "in_region" (columns mid')).
    { destruct (truthy region_data); injection Estep as <-; [|auto].
      split.
      - unfold cell. rewrite column_write_items_other.
        + fold (cell (at_set i "in_region" (VBool true) mid) i "in_region").
          rewrite cell_at_set_same by exact Hfin. now rewrite Hf.
        + intros Hk. apply Hflag.
          exact (check_keys _ _ geocode within reproject _ _ _ _ Hc Hcols
                   _ Hk).
      - now apply columns_write_items_mono, columns_at_set_mono. }
    destruct Hmid' as [Hcell Hin'].
    destruct (loop_other_rows regions_list "in_region" i _ _ _ _ Hrun)
      as [Hafter _]; [left; lia | exact Hin' |].
    now rewrite Hafter.
  - intros Ht c Hcin. rewrite Ht in Estep. injection Estep as <-.
    assert (Hne : c <> "in_region") by (intros ->; contradiction).
    assert (Hcp : In c (columns (prepared cols df))).
    { apply dict_get_in_keys. unfold prepared.
      rewrite column_setitem_other by exact Hne.
      rewrite column_create_in by exact Hcin. eauto. }
    destruct (Before c Hcp) as [Hcell Hin'].
    destruct (loop_other_rows regions_list c i _ _ _ _ Hrun)
      as [Hafter _]; [left; lia | exact Hin' |].
    rewrite Hafter, Hcell. now apply cell_prepared_region.
Qed.

(** *** Distinct column names *)

Lemma distinct_nodup (names : list string) :
  distinct names = true -> NoDup names.
Proof.
  induction names as [|n names IH]; simpl; intros H; [constructor|].
  apply andb_true_iff in H as [Hn H]. apply negb_true_iff in Hn.
  constructor; [now apply existsb_eqb_false | auto].
Qed.

Lemma nodup_app_disjoint (a b : list string) (c : string) :
  NoDup (a ++ b) -> In c a -> ~ In c b.
Proof.
  induction a as [|x a IH]; simpl; intros H Hin; [destruct Hin|].
  inversion H as [|y l Hx Hl]; subst.
  destruct Hin as [->|Hin]; [|now apply IH].
  intros Hb. apply Hx. apply in_or_app. now right.
Qed.

Lemma nodup_app_left (a b : list string) : NoDup (a ++ b) -> NoDup a.
Proof.
  induction a as [|x a IH]; simpl; intros H; [constructor|].
  inversion H as [|y l Hx Hl]; subst. constructor; [|auto].
  intros Hin. apply Hx. apply in_or_app. now left.
Qed.

Lemma columns_prepared_fresh (cols : list string) (df : frame) :
  NoDup (columns df ++ cols ++ ["in_region"]) ->
  columns (prepared cols df) = columns df ++ cols ++ ["in_region"].
Proof.
  intros H. rewrite app_assoc in H. unfold prepared.
  pose proof (nodup_app_left _ _ H) as Hleft.
  rewrite columns_setitem_new; rewrite columns_create_fresh by exact Hleft.
  - now rewrite <- app_assoc.
  - intros Hin. apply (nodup_app_disjoint _ _ _ H Hin). now left.
Qed.


(** When no region column is named [in_region], the flag of a record is
    true exactly when the matcher returned a non-empty [dict] for it. *)
Lemma flag_tracks_region_data (df out : frame) (regions_list : list dataset)
  (cols : list string) (i : nat) (address : value Geometry)
  (region_data : option (Py.dict (value Geometry))) :
  all_columns regions_list = Ok cols ->
  existsb (String.eqb "in_region") cols = false ->
  i < df_len df ->
  series_get (row_at df i) "address" = Ok address ->
  check address regions_list = Ok region_data ->
  run df regions_list = Ok out ->
  cell out i "in_region" = Some (VBool true) <-> truthy region_data = true.
Proof.
  intros Hcols Hflag Hi Hget Hcheck Hrun.
  apply existsb_eqb_false in Hflag.
  destruct (run_record df out regions_list cols i address region_data
              Hcols Hflag Hi Hget Hcheck Hrun) as [-> _].
  split; [intros H; now injection H | now intros ->].
Qed.

End Driver.

(** ** The batch driver of the command-line script

    Its region columns are named [region_<col>], never [in_region]: the
    flag of a record is true exactly when the matcher returned a region,
    whatever the shapefile's columns are called. *)

Section ScriptDriver.

Variable Geometry : Type.
Variable Coord : Type.
Variable geocode : value Geometry -> geocoded Coord.
Variable within : Point Coord -> Geometry -> bool.
Variable reproject : CRS -> CRS -> Geometry -> Geometry.

#[local] Abbreviation check :=
  (Cli.check_address_in_region geocode within reproject).
#[local] Abbreviation step := (Cli.process_row geocode within reproject).
#[local] Abbreviation loop := (Cli.process_rows geocode within reproject).
#[local] Abbreviation run := (Cli.process_addresses geocode within reproject).
#[local] Abbreviation frame := (DataFrame Geometry).

Lemma region_column_not_flag (col : string) :
  ("region_" ++ col)%string <> "in_region".
Proof. simpl. discriminate. Qed.

Lemma region_column_not_address (col : string) :
  ("region_" ++ col)%string <> "address".
Proof. simpl. discriminate. Qed.

Lemma copy_columns_effect (idx : nat) (region_columns : list string)
  (region_data : Py.dict (value Geometry)) (df df' : frame) :
  Cli.copy_columns idx region_columns region_data df = Ok df' ->
  Py.dict_get "in_region" (df_data df')
  = Py.dict_get "in_region" (df_data df)
  /\ forall i c, i <> idx -> In c (columns df) ->
       cell df' i c = cell df i c /\ In c (columns df').
Proof.
  revert df. induction region_columns as [|col cols IH]; intros df H;
    simpl in H.
  - injection H as <-. auto.
  - destruct (Py.dict_get col region_data) as [v|]; [|discriminate].
    destruct (IH _ H) as [Hflag Hrows]. split.
    + rewrite Hflag. apply column_at_set_other.
      intros E. symmetry in E. exact (region_column_not_flag col E).
    + intros i c Hne Hin.
      destruct (Hrows i c Hne (columns_at_set_mono _ _ _ _ _ _ Hin))
        as [Hcell Hin'].
      split; [|exact Hin'].
      rewrite Hcell. now apply cell_at_set_other_row.
Qed.

Lemma script_step_other_row (regions : GeoDataFrame Geometry)
  (region_columns : list string) (c : string) (i idx : nat)
  (row : Series Geometry) (df df' : frame) :
  step regions region_columns idx row df = Ok df' ->
  i <> idx -> In c (columns df) ->
  cell df' i c = cell df i c /\ In c (columns df').
Proof.
  unfold Cli.process_row. intros H Hne Hin.
  destruct (series_get row "address") as [address|e]; [|discriminate].
  simpl in H.
  destruct (truthy (check address regions)); [|injection H as <-; auto].
  destruct (copy_columns_effect _ _ _ _ _ H) as [_ Hrows].
  destruct (Hrows i c Hne (columns_at_set_mono _ _ _ _ _ _ Hin))
    as [Hcell Hin'].
  split; [|exact Hin']. rewrite Hcell. now apply cell_at_set_other_row.
Qed.

Lemma script_loop_other_rows (regions : GeoDataFrame Geometry)
  (region_columns : list string) (c : string) (i : nat)
  (rows : list (Series Geometry)) (k : nat) (df out : frame) :
  loop regions region_columns k rows df = Ok out ->
  i < k \/ k + List.length rows <= i ->
  In c (columns df) ->
  cell out i c = cell df i c /\ In c (columns out).
Proof.
  revert k df. induction rows as [|row rows IH]; intros k df H Hi Hin.
  - simpl in H. injection H as <-. auto.
  - simpl in H, Hi.
    destruct (step regions region_columns k row df) as [df'|e] eqn:E;
      [|discriminate].
    simpl in H.
    destruct (script_step_other_row _ _ c i k row df df' E) as [Hc Hin'];
      [lia | exact Hin |].
    destruct (IH (S k) df' H) as [Hc' Hin'']; [lia | exact Hin' |].
    split; [congruence | exact Hin''].
Qed.

Lemma script_loop_app (regions : GeoDataFrame Geometry)
  (region_columns : list string) (pre post : list (Series Geometry))
  (k : nat) (df : frame) :
  loop regions region_columns k (pre ++ post) df
  = let* df' := loop regions region_columns k pre df in
    loop regions region_columns (k + List.length pre) post df'.
Proof.
  revert k df. induction pre as [|row pre IH]; intros k df; simpl.
  - now rewrite Nat.add_0_r.
  - destruct (step regions region_columns k row df) as [df'|e]; simpl;
      [|reflexivity].
    rewrite IH. now rewrite Nat.add_succ_r.
Qed.

Lemma script_columns_create (region_columns : list string) (df : frame) :
  fold_left (fun current col => setitem ("region_" ++ col) VNone current)
            region_columns df
  = create_columns (map (String.append "region_") region_columns) df.
Proof.
  unfold create_columns. revert df.
  induction region_columns as [|col cols IH]; intros df; simpl;
    [reflexivity|].
  apply IH.
Qed.

Lemma script_flag_tracks_region_data (df out : frame)
  (regions : GeoDataFrame Geometry) (i : nat) (address : value Geometry) :
  i < df_len df ->
  series_get (row_at df i) "address" = Ok address ->
  run df regions = Ok out ->
  cell out i "in_region" = Some (VBool (truthy (check address regions))).
Proof.
  intros Hi Ha Hrun. unfold Cli.process_addresses in Hrun.
  destruct (negb (has_column "address" df)); [discriminate|].
  rewrite script_columns_create in Hrun.
  set (cols := map (String.append "region_")
                   (filter not_geometry (gdf_columns regions))) in Hrun.
  fold (prepared cols df) in Hrun.
  set (region_columns := filter not_geometry (gdf_columns regions)) in Hrun.
  rewrite (iterrows_split _ (prepared cols df) i) in Hrun
    by (rewrite df_len_prepared; exact Hi).
  rewrite script_loop_app in Hrun.
  destruct (loop regions region_columns 0
              (map (row_at (prepared cols df)) (seq 0 i)) (prepared cols df))
    as [mid|e] eqn:Epre; [|discriminate].
  simpl in Hrun. rewrite length_map, length_seq in Hrun.
  destruct (step regions region_columns i (row_at (prepared cols df) i) mid)
    as [mid'|e] eqn:Estep; [|discriminate].
  simpl in Hrun.
  destruct (script_loop_other_rows regions region_columns "in_region" i
              _ _ _ _ Epre) as [Hmid Hin];
    [right; rewrite length_map, length_seq; lia | apply flag_prepared |].
  rewrite cell_prepared_flag in Hmid by exact Hi.
  assert (Haddr : series_get (row_at (prepared cols df) i) "address"
                  = Ok address).
  { unfold series_get. rewrite row_at_get.
    rewrite column_prepared_other; [| |discriminate].
    - unfold series_get in Ha. now rewrite row_at_get in Ha.
    - unfold cols. intros Hc. apply in_map_iff in Hc as [col [E _]].
      exact (region_column_not_address col E). }
  unfold Cli.process_row in Estep. rewrite Haddr in Estep. simpl in Estep.
  assert (Hmid' : cell mid' i "in_region"
                  = Some (VBool (truthy (check address regions)))
                  /\ In "in_region" (columns mid')).
  { destruct (truthy (check address regions)).
    - destruct (copy_columns_effect _ _ _ _ _ Estep) as [Hflag _].
      split.
      + unfold cell. rewrite Hflag.
        fold (cell (at_set i "in_region" (VBool true) mid) i "in_region").
        rewrite cell_at_set_same by exact Hin. now rewrite Hmid.
      + apply dict_get_in_keys. unfold columns in *.
        apply dict_get_in_keys in Hin as [data Hdata].
        rewrite Hflag.
        assert (Hin2 : In "in_region"
                         (columns (at_set i "in_region" (VBool true) mid))).
        { apply columns_at_set_mono. apply dict_get_in_keys. eauto. }
        now apply dict_get_in_keys in Hin2.
    - injection Estep as <-. auto. }
  destruct Hmid' as [Hcell Hin'].
  destruct (script_loop_other_rows regions region_columns "in_region" i
              _ _ _ _ Hrun) as [Hafter _]; [left; lia | exact Hin' |].
  now rewrite Hafter.
Qed.

End ScriptDriver.

(** The concrete runs behind C2, C8, C9 and C7. *)

Lemma no_datasets_not_fatal_witness :
  Toy.run (Toy.addresses ["A"; "B"]) []
  = Ok (mkDataFrame 2 [("address", [VStr "A"; VStr "B"]);
                       ("in_region", [VBool false; VBool false])]).
Proof.
  exact (proj1 (no_datasets_not_fatal Toy.Geometry Z Toy.geocode Toy.within
                  Toy.reproject (Toy.addresses ["A"; "B"]) eq_refl)).
Defined.

(** C2, as stated, fails: with no shapefile at all the batch returns, and
    both records have their output row. *)
Lemma zero_datasets_run_completes :
  exists out,
    Toy.run (Toy.addresses ["A"; "B"]) [] = Ok out
    /\ df_len out = 2
    /\ iterrows out
       = [[("address", VStr "A"); ("in_region", VBool false)];
          [("address", VStr "B"); ("in_region", VBool false)]].
Proof.
  eexists. split; [reflexivity|]. split; reflexivity.
Qed.




(** C7: the code at the failing input.  The shapefile [in.shp] has an
    attribute [region], so its namespaced column is [in_region].  Address
    "A" is matched (the matcher returns a non-empty [dict]), line 107 sets
    the flag, and line 109 then writes the attribute value over it. *)
Theorem flag_overwritten_by_region_column :
  Toy.check (VStr "A") [("/srv/shape_files/in.shp", Toy.layer_in)]
  = Ok (Some [("in_region", VStr "north")])
  /\ exists out,
       Toy.run (Toy.addresses ["A"; "B"])
         [("/srv/shape_files/in.shp", Toy.layer_in)] = Ok out
       /\ cell out 0 "in_region" = Some (VStr "north")
       /\ cell out 0 "in_region" <> Some (VBool true).
Proof.
  split; [reflexivity|]. eexists. split; [reflexivity|].
  split; [reflexivity | discriminate].
Qed.

(** ** Worked examples *)

Example parts_absolute :
  Pathlib.parts "/srv/app/shape_files/counties/ca.shp"
  = ["/"; "srv"; "app"; "shape_files"; "counties"; "ca.shp"].
Proof. reflexivity. Qed.

Example parts_normalised :
  Pathlib.parts "//srv/./app//shape_files/ca.shp/"
  = ["//"; "srv"; "app"; "shape_files"; "ca.shp"].
Proof. reflexivity. Qed.

Example prefix_nested :
  prefix_of "/srv/app/shape_files/counties/ca.shp" = Ok "counties_ca".
Proof. reflexivity. Qed.

Example prefix_every_extension_removed :
  prefix_of "/srv/shape_files/old.shp/ca.shp" = Ok "old_ca".
Proof. reflexivity. Qed.

Example replace_scans_once :
  Py.replace ".shp" "" "a.s.shphp.shp" = "a.shp".
Proof. reflexivity. Qed.

(** The scenario of two addresses and one zone: "A" is matched and gets the
    zone's attribute, "B" is not and keeps [None]. *)
Example two_addresses_one_zone :
  Toy.run (Toy.addresses ["A"; "B"])
    [("/srv/shape_files/zones.shp", Toy.zone_seven)]
  = Ok (mkDataFrame 2
          [("address", [VStr "A"; VStr "B"]);
           ("zones_zone_id", [VStr "7"; VNone]);
           ("in_region", [VBool true; VBool false])]).
Proof. reflexivity. Qed.

(** A failed lookup in the middle of the batch. *)
Example resolver_raises_for_c :
  Toy.run (Toy.addresses ["A"; "C"; "B"])
    [("/srv/shape_files/zones.shp", Toy.zone_seven)]
  = Ok (mkDataFrame 3
          [("address", [VStr "A"; VStr "C"; VStr "B"]);
           ("zones_zone_id", [VStr "7"; VNone; VNone]);
           ("in_region", [VBool true; VBool false; VBool false])]).
Proof. reflexivity. Qed.

Example empty_table :
  Toy.run (Toy.addresses [])
    [("/srv/shape_files/zones.shp", Toy.zone_seven)]
  = Ok (mkDataFrame 0
          [("address", []); ("zones_zone_id", []); ("in_region", [])]).
Proof. reflexivity. Qed.

(** The script on the same two addresses: its columns are [region_<col>]. *)
Example script_two_addresses_one_zone :
  Cli.process_addresses Toy.geocode Toy.within Toy.reproject
    (Toy.addresses ["A"; "B"]) Toy.zone_seven
  = Ok (mkDataFrame 2
          [("address", [VStr "A"; VStr "B"]);
           ("region_zone_id", [VStr "7"; VNone]);
           ("in_region", [VBool true; VBool false])]).
Proof. reflexivity. Qed.

Example find_shapefiles_sorts :
  find_shapefiles (Files ["/srv/shape_files/zones.shp";
                          "/srv/shape_files/a_b.shp";
                          "/srv/shape_files/a/b.shp"])
  = ["/srv/shape_files/a/b.shp";
     "/srv/shape_files/a_b.shp";
     "/srv/shape_files/zones.shp"].
Proof. reflexivity. Qed.

(** * Further properties of the two programs *)

(** ** The output path of the script *)

Lemma append_nil_right (s : string) : (s ++ "")%string = s.
Proof. induction s as [|c s IH]; simpl; [reflexivity | now rewrite IH]. Qed.

Lemma rsplit_once_some (sep : ascii) (s before after : string) :
  rsplit_once sep s = Some (before, after) ->
  s = (before ++ String sep after)%string.
Proof.
  revert before. induction s as [|c s IH]; intros before H; simpl in H;
    [discriminate|].
  destruct (rsplit_once sep s) as [[b a]|].
  - injection H as <- <-. simpl. f_equal. now apply IH.
  - destruct (Ascii.eqb_spec c sep) as [->|Hne]; [|discriminate].
    now injection H as <- <-.
Qed.

Lemma rsplit_once_none (sep : ascii) (s : string) :
  Py.contains (String sep "") s = false -> rsplit_once sep s = None.
Proof.
  induction s as [|c s IH]; intros H; [reflexivity|].
  apply contains_cons in H as [Hp Hc]. simpl. rewrite (IH Hc).
  destruct (Ascii.eqb_spec c sep) as [->|Hne]; [|reflexivity].
  cbn [String.prefix] in Hp. destruct (ascii_dec sep sep); [|congruence].
  now rewrite prefix_nil in Hp.
Qed.

Lemma rsplit_once_last (sep : ascii) (before after : string) :
  Py.contains (String sep "") after = false ->
  rsplit_once sep (before ++ String sep after) = Some (before, after).
Proof.
  intros H. induction before as [|c before IH]; simpl.
  - rewrite (rsplit_once_none _ _ H). now rewrite Ascii.eqb_refl.
  - now rewrite IH.
Qed.

(** X1.  The script never names its input file as its output file: the result
    file cannot overwrite the table it was computed from. *)
Theorem output_path_differs (csv_path : string) :
  output_path csv_path <> csv_path.
Proof.
  unfold output_path, rsplit1.
  destruct (rsplit_once "." csv_path) as [[before after]|] eqn:E; simpl.
  - apply rsplit_once_some in E. intros H. rewrite E in H.
    apply append_inv_head in H. discriminate.
  - intros H.
    assert (H' : (csv_path ++ "_with_regions.csv")%string
                 = (csv_path ++ "")%string)
      by (now rewrite append_nil_right).
    apply append_inv_head in H'. discriminate.
Qed.

(** X2.  The text after the last dot is what the script replaces: [data.csv]
    gives [data_with_regions.csv], and so does every name whose extension
    holds no dot, dots in the stem being kept. *)
Theorem output_path_replaces_extension (stem extension : string) :
  Py.contains "." extension = false ->
  output_path (stem ++ "." ++ extension)
  = (stem ++ "_with_regions.csv")%string.
Proof.
  intros H. unfold output_path, rsplit1.
  change (stem ++ "." ++ extension)%string
    with (stem ++ String "." extension)%string.
  now rewrite (rsplit_once_last "." stem extension H).
Qed.

Lemma output_path_replaces_extension_witness :
  output_path "runs/2024.05/data.csv" = "runs/2024.05/data_with_regions.csv".
Proof.
  exact (output_path_replaces_extension "runs/2024.05/data" "csv" eq_refl).
Defined.

(** X3.  A path without any dot gets the suffix appended to the whole of
    it. *)
Theorem output_path_without_dot (csv_path : string) :
  Py.contains "." csv_path = false ->
  output_path csv_path = (csv_path ++ "_with_regions.csv")%string.
Proof.
  intros H. unfold output_path, rsplit1.
  now rewrite (rsplit_once_none "." csv_path H).
Qed.

Lemma output_path_without_dot_witness :
  output_path "data" = "data_with_regions.csv".
Proof. exact (output_path_without_dot "data" eq_refl). Defined.

(** ** The order of the shapefiles *)

Lemma insert_sorted_permutation (x : string) (l : list string) :
  Permutation (x :: l) (insert_sorted x l).
Proof.
  induction l as [|y l IH]; simpl; [apply Permutation_refl|].
  destruct (String.leb x y); [apply Permutation_refl|].
  eapply perm_trans; [apply perm_swap|]. now apply perm_skip.
Qed.

Lemma leb_false_flip (x y : string) :
  String.leb x y = false -> String.leb y x = true.
Proof.
  intros H. destruct (String.leb_total x y) as [E|E]; congruence.
Qed.

Lemma insert_sorted_sorted (x : string) (l : list string) :
  Sorted (fun a b => String.leb a b = true) l ->
  Sorted (fun a b => String.leb a b = true) (insert_sorted x l).
Proof.
  induction l as [|y l IH]; intros H; simpl.
  - repeat constructor.
  - destruct (String.leb x y) eqn:E.
    + constructor; [exact H | now constructor].
    + inversion H as [|y' l' Hl Hd]; subst. constructor; [now apply IH|].
      apply leb_false_flip in E.
      destruct l as [|z l]; simpl; [now constructor|].
      destruct (String.leb x z); constructor; [exact E|].
      now inversion Hd.
Qed.

Lemma sorted_ascending_permutation (paths : list string) :
  Permutation paths (sorted paths)
  /\ Sorted (fun a b => String.leb a b = true) (sorted paths).
Proof.
  unfold sorted. induction paths as [|p paths [IHp IHs]]; simpl.
  - split; constructor.
  - split.
    + eapply perm_trans; [|apply insert_sorted_permutation].
      now apply perm_skip.
    + now apply insert_sorted_sorted.
Qed.

(** X4.  [find_shapefiles] loses and invents no path, and returns the paths in
    ascending order: each path is at most the next one in the order of
    their characters. *)
Theorem find_shapefiles_sorted (paths : list string) :
  Permutation paths (find_shapefiles (Files paths))
  /\ Sorted (fun a b => String.leb a b = true) (find_shapefiles (Files paths)).
Proof. unfold find_shapefiles. apply sorted_ascending_permutation. Qed.

Lemma ascii_compare_lt_trans (a b c : ascii) :
  Ascii.compare a b = Lt -> Ascii.compare b c = Lt -> Ascii.compare a c = Lt.
Proof.
  unfold Ascii.compare. rewrite !N.compare_lt_iff. apply N.lt_trans.
Qed.

Lemma string_compare_le_trans (x y z : string) :
  String.compare x y <> Gt -> String.compare y z <> Gt ->
  String.compare x z <> Gt.
Proof.
  revert y z. induction x as [|a x IH]; intros [|b y] [|c z]; simpl;
    try congruence.
  destruct (Ascii.compare a b) eqn:Eab; try congruence.
  - apply Ascii.compare_eq_iff in Eab. subst b.
    destruct (Ascii.compare a c) eqn:Eac; try congruence. apply IH.
  - destruct (Ascii.compare b c) eqn:Ebc; try congruence.
    + apply Ascii.compare_eq_iff in Ebc. subst c. rewrite Eab. congruence.
    + rewrite (ascii_compare_lt_trans _ _ _ Eab Ebc). congruence.
Qed.

Lemma leb_trans (x y z : string) :
  String.leb x y = true -> String.leb y z = true -> String.leb x z = true.
Proof.
  unfold String.leb. intros Hxy Hyz.
  pose proof (string_compare_le_trans x y z) as H.
  destruct (String.compare x y); try discriminate;
    destruct (String.compare y z); try discriminate;
    destruct (String.compare x z); try reflexivity;
    exfalso; apply H; congruence.
Qed.

Lemma sorted_head_least (x : string) (l : list string) :
  Sorted (fun a b => String.leb a b = true) (x :: l) ->
  forall y, In y l -> String.leb x y = true.
Proof.
  intros H. apply Sorted_StronglySorted in H.
  - inversion H as [|a l' _ Hall]; subst.
    intros y Hy. rewrite Forall_forall in Hall. now apply Hall.
  - intros a b c. apply leb_trans.
Qed.

(** An ascending list is determined by its elements. *)
Lemma sorted_unique (l1 l2 : list string) :
  Sorted (fun a b => String.leb a b = true) l1 ->
  Sorted (fun a b => String.leb a b = true) l2 ->
  Permutation l1 l2 ->
  l1 = l2.
Proof.
  revert l2. induction l1 as [|x l1 IH]; intros l2 H1 H2 P.
  - now apply Permutation_nil in P.
  - destruct l2 as [|y l2].
    + apply Permutation_sym, Permutation_nil in P. discriminate.
    + assert (E : x = y).
      { assert (Hx : In x (y :: l2))
          by (apply (Permutation_in x P); now left).
        assert (Hy : In y (x :: l1))
          by (apply (Permutation_in y (Permutation_sym P)); now left).
        destruct Hx as [<-|Hx]; [reflexivity|].
        destruct Hy as [<-|Hy]; [reflexivity|].
        apply String.leb_antisym.
        - exact (sorted_head_least x l1 H1 y Hy).
        - exact (sorted_head_least y l2 H2 x Hx). }
      subst y. f_equal. apply IH.
      * now inversion H1.
      * now inversion H2.
      * exact (Permutation_cons_inv P).
Qed.

(** X5.  Whatever order the search of the directory yields the files in,
    [find_shapefiles] returns the same list: the order of [regions_list],
    and with it the order of the region columns and the shapefile whose
    value a shared key keeps, is fixed by the set of files. *)
Theorem find_shapefiles_order_independent (paths paths' : list string) :
  Permutation paths paths' ->
  find_shapefiles (Files paths) = find_shapefiles (Files paths').
Proof.
  intros P. unfold find_shapefiles.
  destruct (sorted_ascending_permutation paths) as [P1 S1].
  destruct (sorted_ascending_permutation paths') as [P2 S2].
  apply sorted_unique; [exact S1 | exact S2 |].
  eapply perm_trans; [apply Permutation_sym, P1|].
  eapply perm_trans; [exact P | exact P2].
Qed.

Lemma find_shapefiles_order_independent_witness :
  find_shapefiles (Files ["/srv/shape_files/zones.shp";
                          "/srv/shape_files/a_b.shp"])
  = find_shapefiles (Files ["/srv/shape_files/a_b.shp";
                            "/srv/shape_files/zones.shp"]).
Proof.
  apply (find_shapefiles_order_independent
           ["/srv/shape_files/zones.shp"; "/srv/shape_files/a_b.shp"]
           ["/srv/shape_files/a_b.shp"; "/srv/shape_files/zones.shp"]).
  apply perm_swap.
Defined.

(** ** Which paths have a prefix *)

Lemma split_not_empty (sep : ascii) (s : string) : Py.split sep s <> [].
Proof.
  induction s as [|c s IH]; simpl; [discriminate|].
  destruct (Ascii.eqb c sep); [discriminate|].
  destruct (Py.split sep s); [contradiction | discriminate].
Qed.

(** [str.split] distributes over a separator. *)
Lemma split_at_separator (sep : ascii) (a b : string) :
  Py.split sep (a ++ String sep b) = Py.split sep a ++ Py.split sep b.
Proof.
  induction a as [|c a IH]; simpl.
  - now rewrite Ascii.eqb_refl.
  - destruct (Ascii.eqb c sep); [now rewrite IH|].
    rewrite IH. pose proof (split_not_empty sep a) as Hn.
    destruct (Py.split sep a); [contradiction | reflexivity].
Qed.

(** The root that [splitroot] takes off only drops empty components. *)
Lemma parts_of_split (p : string) :
  exists root,
    (root = [] \/ root = ["/"] \/ root = ["//"])
    /\ Pathlib.parts p
       = root ++ filter Pathlib.keep_segment (Py.split Pathlib.sep p).
Proof.
  unfold Pathlib.parts, Pathlib.splitroot.
  destruct p as [|c1 rest1]; [exists []; auto|].
  destruct (Ascii.eqb_spec c1 Pathlib.sep) as [->|H1].
  - destruct rest1 as [|c2 rest2].
    + exists ["/"]. auto.
    + destruct (Ascii.eqb_spec c2 Pathlib.sep) as [->|H2].
      * destruct rest2 as [|c3 rest3].
        -- exists ["//"]. auto.
        -- destruct (Ascii.eqb_spec c3 Pathlib.sep) as [->|H3].
           ++ exists ["/"]. split; [auto|]. reflexivity.
           ++ exists ["//"]. split; [auto|].
              cbn [String.eqb Ascii.eqb Bool.eqb app].
              change (Py.split Pathlib.sep
                        (String Pathlib.sep
                           (String Pathlib.sep (String c3 rest3))))
                with (EmptyString :: EmptyString
                        :: Py.split Pathlib.sep (String c3 rest3)).
              reflexivity.
      * exists ["/"]. split; [auto|].
        change (Py.split Pathlib.sep (String Pathlib.sep (String c2 rest2)))
          with (EmptyString :: Py.split Pathlib.sep (String c2 rest2)).
        reflexivity.
  - exists []. split; [auto|]. reflexivity.
Qed.

Lemma existsb_filter_kept (x : string) (keep : string -> bool)
  (l : list string) :
  keep x = true ->
  existsb (String.eqb x) (filter keep l) = existsb (String.eqb x) l.
Proof.
  intros Hk. induction l as [|y l IH]; simpl; [reflexivity|].
  destruct (keep y) eqn:Ey; simpl; rewrite IH; [reflexivity|].
  destruct (String.eqb_spec x y) as [->|Hne]; [congruence | reflexivity].
Qed.

(** A path has the marker segment exactly when one of the components
    between its slashes is [shape_files]: the root and the normalisation of
    [pathlib] play no part. *)
Lemma has_marker_components (file_path : string) :
  has_marker file_path
  = existsb (String.eqb marker) (Py.split "/" file_path).
Proof.
  unfold has_marker.
  destruct (parts_of_split file_path) as [root [Hroot ->]].
  rewrite existsb_app, existsb_filter_kept by reflexivity.
  now destruct Hroot as [-> | [-> | ->]].
Qed.

Lemma split_under_root (base rel : string) :
  Py.split "/" (base ++ "/" ++ marker ++ "/" ++ rel)
  = Py.split "/" base ++ marker :: Py.split "/" rel.
Proof.
  change (base ++ "/" ++ marker ++ "/" ++ rel)%string
    with (base ++ String "/" (marker ++ String "/" rel))%string.
  rewrite split_at_separator, split_at_separator. reflexivity.
Qed.

(** X6.  Every path below a directory named [shape_files] has a prefix.  The
    paths [find_shapefiles] returns for its default directory are of this
    form, so on them neither the column setup nor the matcher raises. *)
Theorem under_root_has_marker (base rel : string) :
  has_marker (base ++ "/" ++ marker ++ "/" ++ rel) = true
  /\ exists prefix,
       prefix_of (base ++ "/" ++ marker ++ "/" ++ rel) = Ok prefix.
Proof.
  assert (H : has_marker (base ++ "/" ++ marker ++ "/" ++ rel) = true).
  { rewrite has_marker_components, split_under_root, existsb_app. simpl.
    apply orb_true_r. }
  split; [exact H | now apply has_marker_true].
Qed.

Lemma index_first (x : string) (before after : list string) :
  existsb (String.eqb x) before = false ->
  Py.index x (before ++ x :: after) = Some (List.length before).
Proof.
  induction before as [|y before IH]; simpl; intros H.
  - now rewrite String.eqb_refl.
  - apply orb_false_iff in H as [Hy H]. rewrite String.eqb_sym in Hy.
    rewrite Hy. now rewrite IH.
Qed.

Lemma skipn_past (x : string) (before after : list string) :
  skipn (List.length before + 1) (before ++ x :: after) = after.
Proof. induction before as [|y before IH]; simpl; auto. Qed.

(** X7.  When no component of the directory above the root is itself named
    [shape_files], the prefix of a shapefile is made from its path below
    the root alone: the same files give the same column names wherever the
    application is installed. *)
Theorem prefix_from_relative_path (base rel : string) :
  existsb (String.eqb marker) (Py.split "/" base) = false ->
  subpath (base ++ "/" ++ marker ++ "/" ++ rel)
  = Ok (filter Pathlib.keep_segment (Py.split "/" rel))
  /\ prefix_of (base ++ "/" ++ marker ++ "/" ++ rel)
     = Ok (prefix_of_segments
             (filter Pathlib.keep_segment (Py.split "/" rel))).
Proof.
  intros Hbase.
  assert (Hs : subpath (base ++ "/" ++ marker ++ "/" ++ rel)
               = Ok (filter Pathlib.keep_segment (Py.split "/" rel))).
  { unfold subpath.
    destruct (parts_of_split (base ++ "/" ++ marker ++ "/" ++ rel))
      as [root [Hroot ->]].
    rewrite split_under_root, filter_app. simpl filter.
    rewrite app_assoc, index_first.
    - now rewrite skipn_past.
    - rewrite existsb_app, existsb_filter_kept by reflexivity.
      rewrite Hbase. now destruct Hroot as [-> | [-> | ->]]. }
  split; [exact Hs|]. unfold prefix_of. now rewrite Hs.
Qed.

Lemma prefix_from_relative_path_witness :
  prefix_of "/home/ann/app/shape_files/counties/./ca.shp"
  = Ok "counties_ca"
  /\ prefix_of "/srv/shape_files/counties/./ca.shp" = Ok "counties_ca".
Proof.
  split.
  - exact (proj2 (prefix_from_relative_path "/home/ann/app"
                    "counties/./ca.shp" eq_refl)).
  - exact (proj2 (prefix_from_relative_path "/srv" "counties/./ca.shp"
                    eq_refl)).
Defined.

(** ** More on the matcher of [app.py] *)

Section MatcherMore.

Variable Geometry : Type.
Variable Coord : Type.
Variable geocode : value Geometry -> geocoded Coord.
Variable within : Point Coord -> Geometry -> bool.
Variable reproject : CRS -> CRS -> Geometry -> Geometry.

#[local] Abbreviation check :=
  (check_address_in_region geocode within reproject).
#[local] Abbreviation scan := (scan_datasets within reproject).
#[local] Abbreviation justified := (justified within reproject).
#[local] Abbreviation dataset := (string * GeoDataFrame Geometry)%type.
#[local] Abbreviation mapping := (Py.dict (value Geometry)).


(** *** Where the entries of the result come from *)

Lemma merge_region_entries (prefix : string)
  (combined region_dict : mapping) (k : string) (v : value Geometry) :
  Py.dict_get k (merge_region prefix combined region_dict) = Some v ->
  Py.dict_get k combined = Some v
  \/ exists key, In (key, v) region_dict
                 /\ key <> "geometry" /\ k = namespaced prefix key.
Proof.
  unfold merge_region. revert combined.
  induction region_dict as [|[key0 v0] d IH]; intros combined H; simpl in *.
  - now left.
  - apply IH in H as [H|[key [Hin [Hg Hk]]]].
    + unfold not_geometry in H.
      destruct (String.eqb_spec key0 "geometry") as [E|Hne]; simpl in H;
        [now left|].
      destruct (String.eqb_spec k (namespaced prefix key0)) as [->|Hk].
      * rewrite dict_get_set_same in H. injection H as <-.
        right. exists key0. auto.
      * rewrite dict_get_set_other in H by exact Hk. now left.
    + right. exists key. auto.
Qed.

Lemma scan_regions_entries (point : Point Coord) (prefix : string)
  (regions : GeoDataFrame Geometry) (combined : mapping) (k : string)
  (v : value Geometry) :
  Py.dict_get k (scan_regions within point prefix regions combined)
  = Some v ->
  Py.dict_get k combined = Some v
  \/ exists region key,
       In region (regions_rows regions)
       /\ within point (geometry region) = true
       /\ In (key, v) (to_dict regions region)
       /\ key <> "geometry" /\ k = namespaced prefix key.
Proof.
  unfold scan_regions.
  assert (G : forall rows combined,
             Py.dict_get k
               (fold_left
                  (fun acc region =>
                     if within point (geometry region)
                     then merge_region prefix acc (to_dict regions region)
                     else acc) rows combined) = Some v ->
             Py.dict_get k combined = Some v
             \/ exists region key,
                  In region rows
                  /\ within point (geometry region) = true
                  /\ In (key, v) (to_dict regions region)
                  /\ key <> "geometry" /\ k = namespaced prefix key).
  { induction rows as [|region rows IH]; intros acc H; simpl in *.
    - now left.
    - apply IH in H as [H|[r [key [Hr H]]]].
      + destruct (within point (geometry region)) eqn:Ew; [|now left].
        apply merge_region_entries in H as [H|[key [Hin [Hg Hk]]]];
          [now left|].
        right. exists region, key. auto.
      + right. exists r, key. auto. }
  apply G.
Qed.

Lemma scan_datasets_entries (point : Point Coord)
  (regions_list : list dataset) (combined result : mapping) (k : string)
  (v : value Geometry) :
  scan point regions_list combined = Ok result ->
  Py.dict_get k result = Some v ->
  Py.dict_get k combined = Some v \/ justified point regions_list k v.
Proof.
  revert combined.
  induction regions_list as [|[file_path regions] rest IH];
    intros combined Hs Hk; simpl in Hs.
  - injection Hs as <-. now left.
  - destruct (prefix_of file_path) as [prefix|e] eqn:Ep; [|discriminate].
    simpl in Hs. destruct (IH _ Hs Hk) as [H|H].
    + apply scan_regions_entries in H as [H|[region [key H]]]; [now left|].
      right. exists file_path, regions, prefix, region, key.
      split; [now left|]. split; [exact Ep | exact H].
    + right.
      destruct H as [fp [rg [pf [region [key [Hin H]]]]]].
      exists fp, rg, pf, region, key. split; [now right | exact H].
Qed.

(** X9.  Every entry of what the matcher returns is an item, other than the
    geometry, of a row that holds the point of the address, under the key
    [prefix_key] of its shapefile: nothing comes from a row that does not
    hold the point, and no geometry is returned. *)
Theorem check_entries_justified (address : value Geometry)
  (regions_list : list dataset) (region_data : option mapping)
  (k : string) (v : value Geometry) :
  check address regions_list = Ok region_data ->
  Py.dict_get k (items region_data) = Some v ->
  exists point,
    get_coordinates geocode address = Some point
    /\ justified point regions_list k v.
Proof.
  unfold check_address_in_region. intros H Hk.
  destruct (get_coordinates geocode address) as [point|].
  - exists point. split; [reflexivity|].
    destruct (scan point regions_list []) as [result|e] eqn:Es;
      [|discriminate].
    simpl in H. injection H as <-.
    assert (Hr : Py.dict_get k result = Some v)
      by (destruct result; [discriminate | exact Hk]).
    destruct (scan_datasets_entries _ _ _ _ _ _ Es Hr) as [H|H];
      [discriminate | exact H].
  - injection H as <-. discriminate.
Qed.


(** X11.  More shapefiles at the end of the list never take a key away: an
    address that is matched stays matched. *)
Theorem check_keeps_keys (address : value Geometry)
  (regions_list more : list dataset) (region_data region_data' : option mapping) :
  check address regions_list = Ok region_data ->
  check address (regions_list ++ more) = Ok region_data' ->
  (forall k, In k (Py.keys (items region_data)) ->
             In k (Py.keys (items region_data')))
  /\ (truthy region_data = true -> truthy region_data' = true).
Proof.
  unfold check_address_in_region. intros H H'.
  destruct (get_coordinates geocode address) as [point|].
  - rewrite scan_datasets_app in H'.
    destruct (scan point regions_list []) as [result|e]; [|discriminate].
    simpl in H, H'.
    destruct (scan point more result) as [result'|e] eqn:Es; [|discriminate].
    simpl in H'. injection H as <-. injection H' as <-.
    assert (K : forall k, In k (Py.keys result) -> In k (Py.keys result'))
      by (intros k; apply (keys_scan_datasets_mono _ _ _ _ _ _ _ _ _ Es)).
    split.
    + intros k Hk. destruct result as [|kv result]; [destruct Hk|].
      specialize (K k Hk). now destruct result'.
    + destruct result as [|[k0 v0] result]; [discriminate|]. intros _.
      specialize (K k0 (or_introl eq_refl)).
      destruct result'; [destruct K | reflexivity].
  - injection H as <-. injection H' as <-. split; [auto | discriminate].
Qed.

End MatcherMore.

(** ** More on the batch driver of [app.py] *)

Section DriverMore.

Variable Geometry : Type.
Variable Coord : Type.
Variable geocode : value Geometry -> geocoded Coord.
Variable within : Point Coord -> Geometry -> bool.
Variable reproject : CRS -> CRS -> Geometry -> Geometry.

#[local] Abbreviation check :=
  (check_address_in_region geocode within reproject).
#[local] Abbreviation step := (process_row geocode within reproject).
#[local] Abbreviation loop := (process_rows geocode within reproject).
#[local] Abbreviation run := (process_addresses geocode within reproject).
#[local] Abbreviation dataset := (string * GeoDataFrame Geometry)%type.
#[local] Abbreviation frame := (DataFrame Geometry).
#[local] Abbreviation mapping := (Py.dict (value Geometry)).

Lemma in_columns_setitem (c name : string) (v : value Geometry) (df : frame) :
  In c (columns (setitem name v df)) <-> In c (columns df) \/ c = name.
Proof.
  destruct (has_column name df) eqn:E.
  - apply has_column_in in E. rewrite columns_setitem_old by exact E.
    split; [auto | intros [H | ->]; auto].
  - apply has_column_not_in in E. rewrite columns_setitem_new by exact E.
    rewrite in_app_iff. simpl. split.
    + intros [H | [-> | []]]; auto.
    + intros [H | ->]; auto.
Qed.

Lemma in_columns_create (c : string) (names : list string) (df : frame) :
  In c (columns (create_columns names df))
  <-> In c (columns df) \/ In c names.
Proof.
  unfold create_columns. revert df.
  induction names as [|n names IH]; intros df; simpl.
  - split; [auto | intros [H|[]]; exact H].
  - rewrite IH, in_columns_setitem. split.
    + intros [[H | ->] | H]; auto.
    + intros [H | [-> | H]]; auto.
Qed.

Lemma in_columns_prepared (c : string) (cols : list string) (df : frame) :
  In c (columns (prepared cols df))
  <-> In c (columns df) \/ In c cols \/ c = "in_region".
Proof.
  unfold prepared. rewrite in_columns_setitem, in_columns_create.
  split; [intros [[H|H]|H] | intros [H|[H|H]]]; auto.
Qed.

Lemma series_get_missing (df : frame) (i : nat) (c : string) :
  has_column c df = false ->
  series_get (row_at df i) c = Raise KeyError.
Proof.
  intros H. apply has_column_not_in in H. apply dict_get_none_not_in in H.
  unfold series_get. rewrite row_at_get. unfold columns in H.
  now rewrite H.
Qed.


(** X13.  The columns of the result are fixed before the first record is looked
    at: the loop adds no column and no row.  The result has the rows of the
    input, and its columns are the input columns, the region columns and
    the flag, and nothing else. *)
Theorem run_columns (df out : frame) (regions_list : list dataset) :
  run df regions_list = Ok out ->
  exists cols,
    all_columns regions_list = Ok cols
    /\ df_len out = df_len df
    /\ columns out = columns (prepared cols df)
    /\ forall c, In c (columns out)
                 <-> In c (columns df) \/ In c cols \/ c = "in_region".
Proof.
  intros Hrun. rewrite run_unfold in Hrun.
  destruct (all_columns regions_list) as [cols|e] eqn:Hcols; [|discriminate].
  simpl in Hrun. exists cols. split; [reflexivity|].
  assert (Hc : columns out = columns (prepared cols df)).
  { apply (loop_columns _ _ geocode within reproject regions_list cols
             _ _ _ _ Hrun Hcols).
    - intros c H. apply in_columns_prepared. auto.
    - apply flag_prepared. }
  split; [|split; [exact Hc|]].
  - rewrite (df_len_loop _ _ geocode within reproject _ _ _ _ _ Hrun).
    apply df_len_prepared.
  - intros c. rewrite Hc. apply in_columns_prepared.
Qed.

(** X14.  A column that is neither a region column nor the flag comes back as it
    went in, cell by cell, whatever the other names are. *)
Theorem run_keeps_other_columns (df out : frame)
  (regions_list : list dataset) (cols : list string) (c : string) :
  run df regions_list = Ok out ->
  all_columns regions_list = Ok cols ->
  existsb (String.eqb c) cols = false ->
  c <> "in_region" ->
  Py.dict_get c (df_data out) = Py.dict_get c (df_data df).
Proof.
  intros Hrun Hcols Hc Hf. apply existsb_eqb_false in Hc.
  rewrite run_unfold, Hcols in Hrun. simpl in Hrun.
  rewrite (loop_column_other _ _ geocode within reproject regions_list cols c
             _ _ _ _ Hrun Hcols Hc Hf).
  now apply column_prepared_other.
Qed.

(** *** The row of a matched record *)

Lemma nodup_merge_region (prefix : string) (combined region_dict : mapping) :
  NoDup (Py.keys combined) ->
  NoDup (Py.keys (merge_region prefix combined region_dict)).
Proof.
  unfold merge_region. revert combined.
  induction region_dict as [|[key v] d IH]; intros combined H; simpl;
    [exact H|].
  apply IH. destruct (not_geometry key); [|exact H].
  now apply nodup_dict_set.
Qed.

Lemma nodup_scan_regions (point : Point Coord) (prefix : string)
  (regions : GeoDataFrame Geometry) (combined : mapping) :
  NoDup (Py.keys combined) ->
  NoDup (Py.keys (scan_regions within point prefix regions combined)).
Proof.
  unfold scan_regions. generalize (regions_rows regions) as rows.
  intros rows. revert combined.
  induction rows as [|region rows IH]; intros combined H; simpl; [exact H|].
  apply IH. destruct (within point (geometry region)); [|exact H].
  now apply nodup_merge_region.
Qed.

Lemma nodup_scan_datasets (point : Point Coord)
  (regions_list : list dataset) (combined result : mapping) :
  scan_datasets within reproject point regions_list combined = Ok result ->
  NoDup (Py.keys combined) -> NoDup (Py.keys result).
Proof.
  revert combined.
  induction regions_list as [|[file_path regions] rest IH];
    intros combined Hs H; simpl in Hs.
  - now injection Hs as <-.
  - destruct (prefix_of file_path) as [prefix|e]; [|discriminate].
    simpl in Hs. apply (IH _ Hs). now apply nodup_scan_regions.
Qed.

Lemma check_nodup (address : value Geometry) (regions_list : list dataset)
  (region_data : option mapping) :
  check address regions_list = Ok region_data ->
  NoDup (Py.keys (items region_data)).
Proof.
  unfold check_address_in_region. intros H.
  destruct (get_coordinates geocode address) as [point|].
  - destruct (scan_datasets within reproject point regions_list [])
      as [result|e] eqn:Es; [|discriminate].
    simpl in H. injection H as <-.
    pose proof (nodup_scan_datasets _ _ _ _ Es (NoDup_nil _)) as Hn.
    destruct result; [constructor | exact Hn].
  - injection H as <-. constructor.
Qed.

Lemma cell_write_items_same (idx : nat) (w : mapping) (df : frame)
  (c : string) (v : value Geometry) :
  NoDup (Py.keys w) ->
  In c (columns df) ->
  Py.dict_get c w = Some v ->
  cell (write_items idx w df) idx c
  = match cell df idx c with Some _ => Some v | None => None end.
Proof.
  unfold write_items. revert df.
  induction w as [|[k v0] w IH]; intros df Hn Hin Hget; [discriminate|].
  simpl in *. inversion Hn as [|x l Hk Hw]; subst.
  destruct (String.eqb_spec k c) as [->|Hne].
  - injection Hget as ->.
    fold (write_items idx w (at_set idx c v df)).
    unfold cell at 1. rewrite column_write_items_other by exact Hk.
    fold (cell (at_set idx c v df) idx c).
    now apply cell_at_set_same.
  - rewrite IH; [|exact Hw | now apply columns_at_set_mono | exact Hget].
    rewrite cell_at_set_other_column by congruence. reflexivity.
Qed.

Lemma cell_prepared_exists (cols : list string) (df : frame) (i : nat)
  (c : string) :
  i < df_len df -> In c cols ->
  exists v, cell (prepared cols df) i c = Some v.
Proof.
  intros Hi Hc. destruct (String.eqb_spec c "in_region") as [->|Hne].
  - rewrite cell_prepared_flag by exact Hi. eauto.
  - rewrite cell_prepared_region by auto. eauto.
Qed.

(** The run seen from record [i]: the frame the earlier records left, in
    which row [i] is still as the setup made it; the frame after the loop
    body for record [i]; and the result, in which row [i] is as that body
    left it. *)
Lemma run_around_record (df out : frame) (regions_list : list dataset)
  (cols : list string) (i : nat) :
  all_columns regions_list = Ok cols ->
  i < df_len df ->
  run df regions_list = Ok out ->
  exists mid mid',
    (forall c, In c (columns (prepared cols df)) ->
               cell mid i c = cell (prepared cols df) i c
               /\ In c (columns mid))
    /\ step regions_list i (row_at (prepared cols df) i) mid = Ok mid'
    /\ (forall c, In c (columns mid') -> cell out i c = cell mid' i c).
Proof.
  intros Hcols Hi Hrun.
  rewrite run_unfold, Hcols in Hrun. simpl in Hrun.
  rewrite (iterrows_split _ (prepared cols df) i) in Hrun
    by (rewrite df_len_prepared; exact Hi).
  rewrite loop_app in Hrun.
  destruct (loop regions_list 0 (map (row_at (prepared cols df)) (seq 0 i))
              (prepared cols df)) as [mid|e] eqn:Epre; [|discriminate].
  simpl in Hrun. rewrite length_map, length_seq in Hrun.
  destruct (step regions_list i (row_at (prepared cols df) i) mid)
    as [mid'|e] eqn:Estep; [|discriminate].
  simpl in Hrun. exists mid, mid'. split; [|split; [exact Estep|]].
  - intros c Hin.
    apply (loop_other_rows _ _ geocode within reproject regions_list c i
             _ _ _ _ Epre); [|exact Hin].
    right. rewrite length_map, length_seq. lia.
  - intros c Hin.
    apply (loop_other_rows _ _ geocode within reproject regions_list c i
             _ _ _ _ Hrun); [left; lia | exact Hin].
Qed.

(** X15.  In the row of a record, every entry of what the matcher returned for
    its address is stored under its key, also when that key is the name of
    the flag; and a region column for which the matcher returned no entry
    holds [None]. *)
Theorem run_stores_region_data (df out : frame)
  (regions_list : list dataset) (cols : list string) (i : nat)
  (address : value Geometry) (region_data : option mapping) :
  all_columns regions_list = Ok cols ->
  i < df_len df ->
  series_get (row_at df i) "address" = Ok address ->
  check address regions_list = Ok region_data ->
  run df regions_list = Ok out ->
  (forall c v, Py.dict_get c (items region_data) = Some v ->
               cell out i c = Some v)
  /\ (forall c, In c cols ->
                Py.dict_get c (items region_data) = None ->
                c <> "in_region" ->
                cell out i c = Some VNone).
Proof.
  intros Hcols Hi Ha Hc Hrun.
  destruct (run_around_record df out regions_list cols i Hcols Hi Hrun)
    as [mid [mid' [Before [Hstep After]]]].
  unfold process_row in Hstep.
  rewrite (address_prepared _ regions_list cols df i Hcols), Ha in Hstep.
  simpl in Hstep. rewrite Hc in Hstep. simpl in Hstep.
  assert (Hkeys : forall c, In c (Py.keys (items region_data)) -> In c cols)
    by exact (check_keys _ _ geocode within reproject _ _ _ _ Hc Hcols).
  split.
  - intros c v Hget.
    assert (Hck : In c (Py.keys (items region_data)))
      by (apply dict_get_in_keys; eauto).
    assert (Ht : truthy region_data = true).
    { destruct region_data as [[|kv d]|]; simpl in *;
        [discriminate | reflexivity | discriminate]. }
    rewrite Ht in Hstep. injection Hstep as <-.
    assert (Hcp : In c (columns (prepared cols df)))
      by (apply in_columns_prepared; auto).
    destruct (Before c Hcp) as [Hmid Hin].
    destruct (cell_prepared_exists cols df i c Hi (Hkeys c Hck)) as [v0 Hv0].
    rewrite Hv0 in Hmid.
    set (flagged := at_set i "in_region" (VBool true) mid).
    assert (Hfin : In c (columns flagged))
      by now apply columns_at_set_mono.
    assert (Hfc : exists v1, cell flagged i c = Some v1).
    { unfold flagged. destruct (String.eqb_spec c "in_region") as [->|Hne].
      - rewrite cell_at_set_same by exact Hin. rewrite Hmid. eauto.
      - rewrite cell_at_set_other_column by exact Hne. eauto. }
    destruct Hfc as [v1 Hv1].
    rewrite After by now apply columns_write_items_mono.
    fold flagged.
    rewrite (cell_write_items_same i _ flagged c v
               (check_nodup _ _ _ Hc) Hfin Hget).
    now rewrite Hv1.
  - intros c Hcin Hnone Hne.
    assert (Hcp : In c (columns (prepared cols df)))
      by (apply in_columns_prepared; auto).
    destruct (Before c Hcp) as [Hmid Hin].
    rewrite cell_prepared_region in Hmid by auto.
    apply dict_get_none_not_in in Hnone.
    destruct (truthy region_data); injection Hstep as <-.
    + rewrite After
        by now apply columns_write_items_mono, columns_at_set_mono.
      unfold cell. rewrite column_write_items_other by exact Hnone.
      rewrite column_at_set_other by exact Hne. exact Hmid.
    + now rewrite After.
Qed.

(** *** The summary *)

Lemma series_sum_flags {A : Type} (m : A -> bool) (l : list A) :
  series_sum (map (fun a => @VBool Geometry (m a)) l)
  = Some (List.length (filter m l)).
Proof.
  induction l as [|a l IH]; simpl; [reflexivity|].
  rewrite IH. now destruct (m a).
Qed.

Lemma filter_complement {A : Type} (m : A -> bool) (l : list A) :
  List.length (filter m l) + List.length (filter (fun a => negb (m a)) l)
  = List.length l.
Proof.
  induction l as [|a l IH]; simpl; [reflexivity|].
  destruct (m a); simpl; lia.
Qed.

Lemma column_length_at_set (c : string) (idx : nat) (col : string)
  (v : value Geometry) (df : frame) :
  In c (columns df) ->
  option_map (@List.length _) (Py.dict_get c (df_data (at_set idx col v df)))
  = option_map (@List.length _) (Py.dict_get c (df_data df)).
Proof.
  intros Hin. destruct (String.eqb_spec c col) as [->|Hne].
  - unfold at_set. apply has_column_in in Hin. rewrite Hin. simpl.
    rewrite (dict_get_rewritten _ col col (list_set idx v)).
    rewrite String.eqb_refl.
    destruct (Py.dict_get col (df_data df)); simpl; [|reflexivity].
    now rewrite length_list_set.
  - now rewrite column_at_set_other.
Qed.

Lemma column_length_write_items (c : string) (idx : nat) (w : mapping)
  (df : frame) :
  In c (columns df) ->
  option_map (@List.length _) (Py.dict_get c (df_data (write_items idx w df)))
  = option_map (@List.length _) (Py.dict_get c (df_data df)).
Proof.
  unfold write_items. revert df.
  induction w as [|[col v] w IH]; intros df Hin; simpl; [reflexivity|].
  rewrite IH by now apply columns_at_set_mono.
  now apply column_length_at_set.
Qed.

Lemma column_length_loop (regions_list : list dataset) (c : string)
  (rows : list (Series Geometry)) (k : nat) (df out : frame) :
  loop regions_list k rows df = Ok out ->
  In c (columns df) ->
  option_map (@List.length _) (Py.dict_get c (df_data out))
  = option_map (@List.length _) (Py.dict_get c (df_data df)).
Proof.
  revert k df. induction rows as [|row rows IH]; intros k df H Hin;
    simpl in H.
  - now injection H as <-.
  - destruct (step regions_list k row df) as [df'|e] eqn:E; [|discriminate].
    simpl in H.
    assert (Hstep : option_map (@List.length _) (Py.dict_get c (df_data df'))
                    = option_map (@List.length _) (Py.dict_get c (df_data df))
                    /\ In c (columns df')).
    { unfold process_row in E.
      destruct (series_get row "address") as [address|e]; [|discriminate].
      simpl in E.
      destruct (check address regions_list) as [rd|e]; [|discriminate].
      simpl in E. destruct (truthy rd); injection E as <-; [|auto].
      split.
      - rewrite column_length_write_items by now apply columns_at_set_mono.
        now apply column_length_at_set.
      - now apply columns_write_items_mono, columns_at_set_mono. }
    destruct Hstep as [Hlen Hin'].
    rewrite (IH _ _ H Hin'). exact Hlen.
Qed.

Lemma list_eq_pointwise {A : Type} (l l' : list A) :
  List.length l = List.length l' ->
  (forall i, i < List.length l -> nth_error l i = nth_error l' i) ->
  l = l'.
Proof.
  revert l'. induction l as [|a l IH]; intros [|a' l'] Hlen H;
    try discriminate; [reflexivity|].
  simpl in Hlen. f_equal.
  - specialize (H 0 (Nat.lt_0_succ _)). simpl in H. congruence.
  - apply IH; [lia|]. intros i Hi. apply (H (S i)). simpl. lia.
Qed.

(** When no region column is named [in_region], the flag column of the
    result is the list of the answers of the matcher, address by address. *)
Lemma run_flag_column (df out : frame) (regions_list : list dataset)
  (cols : list string) (addresses : list (value Geometry)) :
  all_columns regions_list = Ok cols ->
  ~ In "in_region" cols ->
  Py.dict_get "address" (df_data df) = Some addresses ->
  List.length addresses = df_len df ->
  run df regions_list = Ok out ->
  Py.dict_get "in_region" (df_data out)
  = Some (map (fun a => VBool (is_matched geocode within reproject
                                 regions_list a)) addresses).
Proof.
  intros Hcols Hflag Haddr Hlen Hrun.
  pose proof Hrun as Hloop. rewrite run_unfold, Hcols in Hloop.
  simpl in Hloop.
  pose proof (column_length_loop _ "in_region" _ _ _ _ Hloop
                (flag_prepared _ cols df)) as Hl.
  unfold prepared in Hl. rewrite column_setitem_same in Hl.
  simpl in Hl. rewrite repeat_length, df_len_create in Hl.
  destruct (Py.dict_get "in_region" (df_data out)) as [flags|] eqn:Ef;
    [|discriminate].
  simpl in Hl. injection Hl as Hl. f_equal.
  apply list_eq_pointwise; [rewrite length_map; lia|].
  intros i Hi. rewrite nth_error_map.
  assert (Hi' : i < List.length addresses) by lia.
  rewrite (nth_error_nth' addresses VNaN Hi'). simpl.
  assert (Ha : series_get (row_at df i) "address"
               = Ok (nth i addresses VNaN)).
  { unfold series_get. rewrite row_at_get, Haddr. reflexivity. }
  destruct (check_returns _ _ geocode within reproject
              (nth i addresses VNaN) regions_list
              (all_columns_markers _ _ _ Hcols)) as [rd Hrd].
  destruct (run_record _ _ geocode within reproject df out regions_list cols
              i _ rd Hcols Hflag ltac:(lia) Ha Hrd Hrun) as [Hcell _].
  unfold cell in Hcell. rewrite Ef in Hcell.
  unfold is_matched. rewrite Hrd. exact Hcell.
Qed.

(** X16.  The three numbers shown after a batch.  When no region column is named
    [in_region]: the total is the number of input rows, "Found in Regions"
    is the number of addresses for which the matcher returned something,
    "Not Found" is the number of the others, and the two add up to the
    total. *)
Theorem summary_counts_matches (df out : frame)
  (regions_list : list dataset) (cols : list string)
  (addresses : list (value Geometry)) :
  all_columns regions_list = Ok cols ->
  existsb (String.eqb "in_region") cols = false ->
  Py.dict_get "address" (df_data df) = Some addresses ->
  List.length addresses = df_len df ->
  run df regions_list = Ok out ->
  exists report,
    summary out = Some report
    /\ total report = df_len df
    /\ found report
       = List.length
           (filter (is_matched geocode within reproject regions_list)
                   addresses)
    /\ not_found report
       = Z.of_nat
           (List.length
              (filter (fun a => negb (is_matched geocode within reproject
                                        regions_list a))
                      addresses))
    /\ (Z.of_nat (found report) + not_found report
        = Z.of_nat (total report))%Z.
Proof.
  intros Hcols Hflag Haddr Hlen Hrun. apply existsb_eqb_false in Hflag.
  pose proof (run_flag_column df out regions_list cols addresses Hcols Hflag
                Haddr Hlen Hrun) as Hcolumn.
  assert (Hrows : df_len out = df_len df).
  { pose proof Hrun as Hloop. rewrite run_unfold, Hcols in Hloop.
    simpl in Hloop.
    rewrite (df_len_loop _ _ geocode within reproject _ _ _ _ _ Hloop).
    apply df_len_prepared. }
  unfold summary. rewrite Hcolumn, series_sum_flags.
  eexists. split; [reflexivity|]. simpl.
  pose proof (filter_complement
                (is_matched geocode within reproject regions_list) addresses)
    as Hsplit.
  rewrite Hrows. repeat split; lia.
Qed.

End DriverMore.

(** ** More on the command-line script *)

Section ScriptMore.

Variable Geometry : Type.
Variable Coord : Type.
Variable geocode : value Geometry -> geocoded Coord.
Variable within : Point Coord -> Geometry -> bool.
Variable reproject : CRS -> CRS -> Geometry -> Geometry.

#[local] Abbreviation check :=
  (Cli.check_address_in_region geocode within reproject).
#[local] Abbreviation step := (Cli.process_row geocode within reproject).
#[local] Abbreviation loop := (Cli.process_rows geocode within reproject).
#[local] Abbreviation run := (Cli.process_addresses geocode within reproject).
#[local] Abbreviation frame := (DataFrame Geometry).
#[local] Abbreviation mapping := (Py.dict (value Geometry)).

Lemma keys_fold_dict_set {V : Type} (pairs : list (string * V))
  (d : Py.dict V) (k : string) :
  In k (Py.keys d) \/ In k (map fst pairs) ->
  In k (Py.keys (fold_left (fun acc kv => Py.dict_set (fst kv) (snd kv) acc)
                           pairs d)).
Proof.
  revert d. induction pairs as [|[k0 v0] pairs IH]; intros d H; simpl in *.
  - destruct H as [H|[]]. exact H.
  - apply IH. destruct H as [H | [-> | H]]; auto.
    + left. apply keys_dict_set. now right.
    + left. apply keys_dict_set. now left.
Qed.

Lemma map_fst_combine_short {A B : Type} (l : list A) (l' : list B) :
  List.length l <= List.length l' -> map fst (combine l l') = l.
Proof.
  revert l'. induction l as [|a l IH]; intros [|b l'] H; simpl in *;
    try reflexivity; [lia|].
  f_equal. apply IH. lia.
Qed.

(** A complete row has an entry for every column of its frame. *)
Lemma to_dict_has_columns (regions : GeoDataFrame Geometry)
  (region : Region Geometry) (col : string) :
  List.length (attribute_columns regions)
  <= List.length (attributes region) ->
  In col (gdf_columns regions) ->
  In col (Py.keys (to_dict regions region)).
Proof.
  intros Hlen Hin. unfold to_dict, Py.dict_of.
  apply keys_fold_dict_set. right.
  rewrite map_app, map_fst_combine_short by exact Hlen. exact Hin.
Qed.

Lemma rows_complete_reconcile (regions : GeoDataFrame Geometry) :
  rows_complete (reconcile reproject regions) = rows_complete regions.
Proof.
  unfold reconcile.
  destruct (negb (String.eqb (crs regions) point_crs)); [|reflexivity].
  unfold rows_complete, to_crs. simpl.
  induction (regions_rows regions) as [|r rows IH]; simpl; [reflexivity|].
  now rewrite IH.
Qed.

Lemma first_within_some (point : Point Coord)
  (regions : GeoDataFrame Geometry) (rows : list (Region Geometry))
  (d : mapping) :
  Cli.first_within within point regions rows = Some d ->
  exists region,
    In region rows
    /\ within point (geometry region) = true
    /\ d = to_dict regions region.
Proof.
  induction rows as [|r rows IH]; simpl; intros H; [discriminate|].
  destruct (within point (geometry r)) eqn:E.
  - injection H as <-. exists r. auto.
  - destruct (IH H) as [region [Hin H']]. exists region. auto.
Qed.

(** What the script's matcher returns has an entry for every column the
    driver copies. *)
Lemma script_check_has_columns (address : value Geometry)
  (regions : GeoDataFrame Geometry) (d : mapping) (col : string) :
  rows_complete regions = true ->
  check address regions = Some d ->
  In col (gdf_columns regions) ->
  In col (Py.keys d).
Proof.
  intros Hc H Hin. unfold Cli.check_address_in_region in H.
  destruct (get_coordinates geocode address) as [point|]; [|discriminate].
  apply first_within_some in H as [region [Hr [_ ->]]].
  rewrite <- rows_complete_reconcile in Hc. unfold rows_complete in Hc.
  rewrite forallb_forall in Hc. specialize (Hc region Hr).
  apply Nat.leb_le in Hc.
  apply to_dict_has_columns; [exact Hc|].
  now rewrite gdf_columns_reconcile.
Qed.

Lemma copy_columns_returns (idx : nat) (region_columns : list string)
  (region_data : mapping) (df : frame) :
  (forall col, In col region_columns -> In col (Py.keys region_data)) ->
  exists df', Cli.copy_columns idx region_columns region_data df = Ok df'.
Proof.
  revert df. induction region_columns as [|col cols IH]; intros df H; simpl;
    [eauto|].
  destruct (proj1 (dict_get_in_keys col region_data) (H col (or_introl eq_refl)))
    as [v ->].
  apply IH. intros c Hc. apply H. now right.
Qed.

Lemma script_loop_returns (regions : GeoDataFrame Geometry)
  (rows : list (Series Geometry)) (k : nat) (df : frame) :
  rows_complete regions = true ->
  (forall row, In row rows -> exists a, series_get row "address" = Ok a) ->
  exists out,
    loop regions (filter not_geometry (gdf_columns regions)) k rows df
    = Ok out.
Proof.
  intros Hc. revert k df.
  induction rows as [|row rows IH]; intros k df Hrows; simpl; [eauto|].
  destruct (Hrows row (or_introl eq_refl)) as [address Ha].
  unfold Cli.process_row at 1. rewrite Ha. simpl.
  assert (Hrest : forall r, In r rows ->
                    exists a, series_get r "address" = Ok a)
    by (intros r Hr; apply Hrows; now right).
  destruct (check address regions) as [[|kv d]|] eqn:E; simpl;
    try (now apply IH).
  destruct (copy_columns_returns k (filter not_geometry (gdf_columns regions))
              (kv :: d) (at_set k "in_region" (VBool true) df)) as [df' ->].
  - intros col Hcol. apply filter_In in Hcol as [Hcol _].
    exact (script_check_has_columns address regions (kv :: d) col Hc E Hcol).
  - simpl. now apply IH.
Qed.


(** *** What the copy of one row does *)

Lemma region_column_injective (col col' : string) :
  ("region_" ++ col)%string = ("region_" ++ col')%string -> col = col'.
Proof. apply append_inv_head. Qed.

Lemma copy_columns_frame (idx : nat) (region_columns : list string)
  (region_data : mapping) (df df' : frame) :
  Cli.copy_columns idx region_columns region_data df = Ok df' ->
  df_len df' = df_len df
  /\ (forall c, In c (columns df) -> In c (columns df'))
  /\ (forall c, In c (columns df) ->
        option_map (@List.length _) (Py.dict_get c (df_data df'))
        = option_map (@List.length _) (Py.dict_get c (df_data df)))
  /\ (forall c, ~ In c (map (String.append "region_") region_columns) ->
        Py.dict_get c (df_data df') = Py.dict_get c (df_data df)).
Proof.
  revert df. induction region_columns as [|col cols IH]; intros df H;
    simpl in H.
  - injection H as <-. auto.
  - destruct (Py.dict_get col region_data) as [v|]; [|discriminate].
    destruct (IH _ H) as [Hlen [Hmono [Hcl Hother]]].
    split; [|split; [|split]].
    + rewrite Hlen. apply df_len_at_set.
    + intros c Hc. now apply Hmono, columns_at_set_mono.
    + intros c Hc. rewrite Hcl by now apply columns_at_set_mono.
      now apply column_length_at_set.
    + intros c Hc. simpl in Hc. rewrite Hother by (intros Hin; apply Hc; now right).
      apply column_at_set_other. intros ->. apply Hc. now left.
Qed.

Lemma copy_columns_ok_keys (idx : nat) (region_columns : list string)
  (region_data : mapping) (df df' : frame) :
  Cli.copy_columns idx region_columns region_data df = Ok df' ->
  forall col, In col region_columns -> Py.dict_get col region_data <> None.
Proof.
  revert df. induction region_columns as [|k cols IH]; intros df H col Hin;
    [destruct Hin|].
  simpl in H.
  destruct (Py.dict_get k region_data) as [v|] eqn:Ek; [|discriminate].
  destruct Hin as [->|Hin]; [congruence | exact (IH _ H col Hin)].
Qed.

Lemma copy_columns_cell (idx : nat) (region_columns : list string)
  (region_data : mapping) (df df' : frame) (col : string)
  (v : value Geometry) :
  Cli.copy_columns idx region_columns region_data df = Ok df' ->
  In col region_columns ->
  Py.dict_get col region_data = Some v ->
  In ("region_" ++ col)%string (columns df) ->
  cell df' idx ("region_" ++ col)
  = match cell df idx ("region_" ++ col) with
    | Some _ => Some v
    | None => None
    end.
Proof.
  revert df. induction region_columns as [|k cols IH];
    intros df H Hin Hget Hcol; [destruct Hin|].
  simpl in H.
  destruct (Py.dict_get k region_data) as [v0|] eqn:Ek; [|discriminate].
  destruct (in_dec string_dec col cols) as [Hrest|Hrest].
  - rewrite (IH _ H Hrest Hget) by now apply columns_at_set_mono.
    destruct (string_dec k col) as [->|Hne].
    + rewrite cell_at_set_same by exact Hcol.
      now destruct (cell df idx ("region_" ++ col)).
    + rewrite cell_at_set_other_column; [reflexivity|].
      intros E. apply region_column_injective in E. congruence.
  - destruct Hin as [->|Hin]; [|contradiction].
    rewrite Hget in Ek. injection Ek as <-.
    destruct (copy_columns_frame _ _ _ _ _ H) as [_ [_ [_ Hother]]].
    unfold cell at 1. rewrite Hother.
    + fold (cell (at_set idx ("region_" ++ col) v df) idx ("region_" ++ col)).
      now apply cell_at_set_same.
    + intros E. apply in_map_iff in E as [c [E Hc]].
      apply region_column_injective in E. congruence.
Qed.

Lemma script_step_frame (regions : GeoDataFrame Geometry)
  (region_columns : list string) (idx : nat) (row : Series Geometry)
  (df df' : frame) :
  step regions region_columns idx row df = Ok df' ->
  df_len df' = df_len df
  /\ forall c, In c (columns df) ->
       In c (columns df')
       /\ option_map (@List.length _) (Py.dict_get c (df_data df'))
          = option_map (@List.length _) (Py.dict_get c (df_data df)).
Proof.
  unfold Cli.process_row. intros H.
  destruct (series_get row "address") as [address|e]; [|discriminate].
  simpl in H.
  destruct (truthy (check address regions)); [|injection H as <-; auto].
  destruct (copy_columns_frame _ _ _ _ _ H) as [Hlen [Hmono [Hcl _]]].
  split; [rewrite Hlen; apply df_len_at_set|].
  intros c Hc. split; [now apply Hmono, columns_at_set_mono|].
  rewrite Hcl by now apply columns_at_set_mono.
  now apply column_length_at_set.
Qed.

Lemma script_loop_frame (regions : GeoDataFrame Geometry)
  (region_columns : list string) (rows : list (Series Geometry)) (k : nat)
  (df out : frame) :
  loop regions region_columns k rows df = Ok out ->
  df_len out = df_len df
  /\ forall c, In c (columns df) ->
       option_map (@List.length _) (Py.dict_get c (df_data out))
       = option_map (@List.length _) (Py.dict_get c (df_data df)).
Proof.
  revert k df. induction rows as [|row rows IH]; intros k df H; simpl in H.
  - injection H as <-. auto.
  - destruct (step regions region_columns k row df) as [df'|e] eqn:E;
      [|discriminate].
    simpl in H. destruct (IH _ _ H) as [Hlen Hcl].
    destruct (script_step_frame _ _ _ _ _ _ E) as [Hlen' Hstep].
    split; [congruence|]. intros c Hc.
    destruct (Hstep c Hc) as [Hin Hl]. rewrite Hcl by exact Hin. exact Hl.
Qed.

(** The script's run seen from record [i], as for [app.py]. *)
Lemma script_around_record (df out : frame)
  (regions : GeoDataFrame Geometry) (i : nat) :
  i < df_len df ->
  run df regions = Ok out ->
  exists mid mid',
    (forall c, In c (columns (prepared
                                (map (String.append "region_")
                                     (filter not_geometry
                                             (gdf_columns regions))) df)) ->
       cell mid i c
       = cell (prepared (map (String.append "region_")
                             (filter not_geometry (gdf_columns regions)))
                        df) i c
       /\ In c (columns mid))
    /\ step regions (filter not_geometry (gdf_columns regions)) i
            (row_at (prepared (map (String.append "region_")
                                   (filter not_geometry
                                           (gdf_columns regions))) df) i)
            mid = Ok mid'
    /\ (forall c, In c (columns mid') -> cell out i c = cell mid' i c).
Proof.
  intros Hi Hrun. unfold Cli.process_addresses in Hrun.
  destruct (negb (has_column "address" df)); [discriminate|].
  rewrite script_columns_create in Hrun.
  set (cols := map (String.append "region_")
                   (filter not_geometry (gdf_columns regions))) in *.
  fold (prepared cols df) in Hrun.
  set (region_columns := filter not_geometry (gdf_columns regions)) in *.
  rewrite (iterrows_split _ (prepared cols df) i) in Hrun
    by (rewrite df_len_prepared; exact Hi).
  rewrite script_loop_app in Hrun.
  destruct (loop regions region_columns 0
              (map (row_at (prepared cols df)) (seq 0 i)) (prepared cols df))
    as [mid|e] eqn:Epre; [|discriminate].
  simpl in Hrun. rewrite length_map, length_seq in Hrun.
  destruct (step regions region_columns i (row_at (prepared cols df) i) mid)
    as [mid'|e] eqn:Estep; [|discriminate].
  simpl in Hrun. exists mid, mid'. split; [|split; [exact Estep|]].
  - intros c Hin.
    apply (script_loop_other_rows _ _ geocode within reproject regions
             region_columns c i _ _ _ _ Epre); [|exact Hin].
    right. rewrite length_map, length_seq. lia.
  - intros c Hin.
    apply (script_loop_other_rows _ _ geocode within reproject regions
             region_columns c i _ _ _ _ Hrun); [left; lia | exact Hin].
Qed.

Lemma script_address_prepared (cols : list string) (df : frame) (i : nat) :
  (forall c, In c cols -> exists col, c = ("region_" ++ col)%string) ->
  series_get (row_at (prepared cols df) i) "address"
  = series_get (row_at df i) "address".
Proof.
  intros H. unfold series_get. rewrite !row_at_get.
  rewrite column_prepared_other; [reflexivity | | discriminate].
  intros Hc. destruct (H _ Hc) as [col E]. discriminate.
Qed.

(** X18.  The row of a record in the script's result.  Its flag is true exactly
    when the matcher returned a region for its address.  If it did, the
    cell [region_<col>] holds that region's value of [col], the first
    region that holds the point; if not, it holds [None]. *)
Theorem script_record (df out : frame) (regions : GeoDataFrame Geometry)
  (i : nat) (address : value Geometry) :
  i < df_len df ->
  series_get (row_at df i) "address" = Ok address ->
  run df regions = Ok out ->
  cell out i "in_region" = Some (VBool (truthy (check address regions)))
  /\ forall col,
       In col (attribute_columns regions) -> col <> "geometry" ->
       cell out i ("region_" ++ col)
       = match check address regions with
         | Some region_data => Py.dict_get col region_data
         | None => Some VNone
         end.
Proof.
  intros Hi Ha Hrun.
  split; [exact (script_flag_tracks_region_data _ _ geocode within reproject
                   df out regions i address Hi Ha Hrun)|].
  intros col Hcol Hne.
  assert (Hrc : In col (filter not_geometry (gdf_columns regions))).
  { apply filter_In. split.
    - unfold gdf_columns. apply in_or_app. now left.
    - unfold not_geometry. now destruct (String.eqb_spec col "geometry"). }
  destruct (script_around_record df out regions i Hi Hrun)
    as [mid [mid' [Before [Hstep After]]]].
  set (cols := map (String.append "region_")
                   (filter not_geometry (gdf_columns regions))) in *.
  assert (Hin : In ("region_" ++ col)%string cols)
    by (unfold cols; now apply in_map).
  assert (Hcp : In ("region_" ++ col)%string (columns (prepared cols df)))
    by (apply in_columns_prepared; auto).
  destruct (Before _ Hcp) as [Hmid Hinmid].
  rewrite cell_prepared_region in Hmid
    by (auto using region_column_not_flag).
  unfold Cli.process_row in Hstep.
  rewrite script_address_prepared, Ha in Hstep.
  2:{ intros c Hc. unfold cols in Hc.
      apply in_map_iff in Hc as [c0 [<- _]]. eauto. }
  cbn [bind] in Hstep.
  destruct (check address regions) as [rd|] eqn:Ec; cbn [items] in Hstep.
  - assert (Ht : truthy (Some rd) = true).
    { unfold Cli.check_address_in_region in Ec.
      destruct (get_coordinates geocode address) as [point|];
        [|discriminate].
      apply first_within_some in Ec as [region [_ [_ E]]].
      assert (Hg : In "geometry"
                      (Py.keys (to_dict (reconcile reproject regions)
                                        region))).
      { unfold to_dict, Py.dict_of. apply keys_fold_dict_set. right.
        rewrite map_app. apply in_or_app. right. now left. }
      rewrite <- E in Hg. destruct rd; [destruct Hg | reflexivity]. }
    rewrite Ht in Hstep.
    destruct (copy_columns_frame _ _ _ _ _ Hstep) as [_ [Hmono _]].
    rewrite After
      by (apply Hmono; now apply columns_at_set_mono).
    destruct (Py.dict_get col rd) as [v|] eqn:Eget.
    + rewrite (copy_columns_cell _ _ _ _ _ col v Hstep Hrc Eget)
        by now apply columns_at_set_mono.
      rewrite cell_at_set_other_column
        by (apply region_column_not_flag).
      now rewrite Hmid.
    + exfalso.
      exact (copy_columns_ok_keys _ _ _ _ _ Hstep col Hrc Eget).
  - simpl in Hstep. injection Hstep as <-.
    rewrite After by exact Hinmid. exact Hmid.
Qed.

(** X19.  The three numbers the script prints at the end: the number of rows,
    the number of addresses for which the matcher returned a region, and
    the number of the others; the last two add up to the first.  This
    holds for every shapefile, whatever its columns are called. *)
Theorem script_summary (df out : frame) (regions : GeoDataFrame Geometry)
  (addresses : list (value Geometry)) :
  Py.dict_get "address" (df_data df) = Some addresses ->
  List.length addresses = df_len df ->
  run df regions = Ok out ->
  exists report,
    summary out = Some report
    /\ total report = df_len df
    /\ found report
       = List.length
           (filter (fun a => truthy (check a regions)) addresses)
    /\ not_found report
       = Z.of_nat
           (List.length
              (filter (fun a => negb (truthy (check a regions))) addresses))
    /\ (Z.of_nat (found report) + not_found report
        = Z.of_nat (total report))%Z.
Proof.
  intros Haddr Hlen Hrun.
  assert (Hframe : df_len out = df_len df
                   /\ option_map (@List.length _)
                        (Py.dict_get "in_region" (df_data out))
                      = Some (df_len df)).
  { pose proof Hrun as Hloop. unfold Cli.process_addresses in Hloop.
    destruct (negb (has_column "address" df)); [discriminate|].
    rewrite script_columns_create in Hloop.
    set (cols := map (String.append "region_")
                     (filter not_geometry (gdf_columns regions))) in Hloop.
    fold (prepared cols df) in Hloop.
    destruct (script_loop_frame _ _ _ _ _ _ Hloop) as [Hl Hcl].
    split; [now rewrite Hl, df_len_prepared|].
    rewrite (Hcl "in_region" (flag_prepared _ cols df)).
    unfold prepared. rewrite column_setitem_same. simpl.
    now rewrite repeat_length, df_len_create. }
  destruct Hframe as [Hrows Hcl].
  destruct (Py.dict_get "in_region" (df_data out)) as [flags|] eqn:Ef;
    [|discriminate].
  simpl in Hcl. injection Hcl as Hcl.
  assert (Hflags : flags
                   = map (fun a => VBool (truthy (check a regions)))
                         addresses).
  { apply list_eq_pointwise; [rewrite length_map; lia|].
    intros i Hi. rewrite nth_error_map.
    assert (Hi' : i < List.length addresses) by lia.
    rewrite (nth_error_nth' addresses VNaN Hi'). simpl.
    assert (Ha : series_get (row_at df i) "address"
                 = Ok (nth i addresses VNaN)).
    { unfold series_get. rewrite row_at_get, Haddr. reflexivity. }
    pose proof (script_flag_tracks_region_data _ _ geocode within reproject
                  df out regions i _ ltac:(lia) Ha Hrun) as Hcell.
    unfold cell in Hcell. now rewrite Ef in Hcell. }
  unfold summary. rewrite Ef, Hflags, series_sum_flags.
  eexists. split; [reflexivity|]. simpl.
  pose proof (filter_complement (fun a => truthy (check a regions)) addresses)
    as Hsplit.
  rewrite Hrows. repeat split; lia.
Qed.

End ScriptMore.

(** ** The further properties at concrete inputs *)

Lemma check_entries_justified_witness :
  exists point,
    get_coordinates Toy.geocode (VStr "A") = Some point
    /\ justified Toy.within Toy.reproject point
         [("/srv/shape_files/zones.shp", Toy.zones)]
         "zones_name" (VStr "east").
Proof.
  exact (check_entries_justified Toy.Geometry Z Toy.geocode Toy.within
           Toy.reproject (VStr "A")
           [("/srv/shape_files/zones.shp", Toy.zones)]
           (Some [("zones_name", VStr "east"); ("zones_zone_id", VInt 8)])
           "zones_name" (VStr "east") eq_refl eq_refl).
Defined.


Lemma check_keeps_keys_witness :
  (forall k,
     In k ["zones_name"; "zones_zone_id"] ->
     In k ["zones_name"; "zones_zone_id"; "a_b_c"])
  /\ (true = true -> true = true).
Proof.
  exact (check_keeps_keys Toy.Geometry Z Toy.geocode Toy.within
           Toy.reproject (VStr "A")
           [("/srv/shape_files/zones.shp", Toy.zones)]
           [("/srv/shape_files/a_b.shp", Toy.layer_a_b)]
           (Some [("zones_name", VStr "east"); ("zones_zone_id", VInt 8)])
           (Some [("zones_name", VStr "east"); ("zones_zone_id", VInt 8);
                  ("a_b_c", VStr "second")])
           eq_refl eq_refl).
Defined.

Lemma run_columns_witness :
  exists cols,
    all_columns [("/srv/shape_files/zones.shp", Toy.zone_seven)] = Ok cols
    /\ 2 = 2
    /\ ["address"; "zones_zone_id"; "in_region"]
       = columns (prepared cols (Toy.addresses ["A"; "B"]))
    /\ forall c,
         In c ["address"; "zones_zone_id"; "in_region"]
         <-> In c ["address"] \/ In c cols \/ c = "in_region".
Proof.
  exact (run_columns Toy.Geometry Z Toy.geocode Toy.within Toy.reproject
           (Toy.addresses ["A"; "B"])
           (mkDataFrame 2
              [("address", [VStr "A"; VStr "B"]);
               ("zones_zone_id", [VStr "7"; VNone]);
               ("in_region", [VBool true; VBool false])])
           [("/srv/shape_files/zones.shp", Toy.zone_seven)] eq_refl).
Defined.

Lemma run_keeps_other_columns_witness :
  Some [VStr "A"; VStr "B"]
  = Py.dict_get "address" (df_data (Toy.addresses ["A"; "B"])).
Proof.
  exact (run_keeps_other_columns Toy.Geometry Z Toy.geocode Toy.within
           Toy.reproject (Toy.addresses ["A"; "B"])
           (mkDataFrame 2
              [("address", [VStr "A"; VStr "B"]);
               ("zones_zone_id", [VStr "7"; VNone]);
               ("in_region", [VBool true; VBool false])])
           [("/srv/shape_files/zones.shp", Toy.zone_seven)]
           ["zones_zone_id"] "address" eq_refl eq_refl eq_refl
           ltac:(discriminate)).
Defined.

Lemma run_stores_region_data_witness :
  cell (mkDataFrame 2
          [("address", [VStr "A"; VStr "B"]);
           ("in_region", [VStr "north"; VBool false])])
       0 "in_region"
  = Some (@VStr Toy.Geometry "north").
Proof.
  exact (proj1 (run_stores_region_data Toy.Geometry Z Toy.geocode Toy.within
                  Toy.reproject (Toy.addresses ["A"; "B"])
                  (mkDataFrame 2
                     [("address", [VStr "A"; VStr "B"]);
                      ("in_region", [VStr "north"; VBool false])])
                  [("/srv/shape_files/in.shp", Toy.layer_in)]
                  ["in_region"] 0 (VStr "A")
                  (Some [("in_region", VStr "north")])
                  eq_refl (le_n_S _ _ (le_0_n _)) eq_refl eq_refl eq_refl)
               "in_region" (VStr "north") eq_refl).
Defined.

Lemma summary_counts_matches_witness :
  exists report,
    @summary Toy.Geometry (mkDataFrame 3
               [("address", [VStr "A"; VStr "C"; VStr "B"]);
                ("zones_zone_id", [VStr "7"; VNone; VNone]);
                ("in_region", [VBool true; VBool false; VBool false])])
    = Some report
    /\ total report = 3
    /\ found report = 1
    /\ not_found report = 2%Z
    /\ (Z.of_nat (found report) + not_found report
        = Z.of_nat (total report))%Z.
Proof.
  exact (summary_counts_matches Toy.Geometry Z Toy.geocode Toy.within
           Toy.reproject (Toy.addresses ["A"; "C"; "B"])
           (mkDataFrame 3
              [("address", [VStr "A"; VStr "C"; VStr "B"]);
               ("zones_zone_id", [VStr "7"; VNone; VNone]);
               ("in_region", [VBool true; VBool false; VBool false])])
           [("/srv/shape_files/zones.shp", Toy.zone_seven)]
           ["zones_zone_id"] [VStr "A"; VStr "C"; VStr "B"]
           eq_refl eq_refl eq_refl eq_refl eq_refl).
Defined.


Lemma script_record_witness :
  cell (mkDataFrame 2
          [("address", [VStr "A"; VStr "B"]);
           ("region_name", [VStr "west"; VNone]);
           ("region_zone_id", [VInt 7; VNone]);
           ("in_region", [VBool true; VBool false])])
       0 "region_name"
  = Some (@VStr Toy.Geometry "west").
Proof.
  exact (proj2 (script_record Toy.Geometry Z Toy.geocode Toy.within
                  Toy.reproject (Toy.addresses ["A"; "B"])
                  (mkDataFrame 2
                     [("address", [VStr "A"; VStr "B"]);
                      ("region_name", [VStr "west"; VNone]);
                      ("region_zone_id", [VInt 7; VNone]);
                      ("in_region", [VBool true; VBool false])])
                  Toy.zones 0 (VStr "A")
                  (le_n_S _ _ (le_0_n _)) eq_refl eq_refl)
               "name" (or_introl eq_refl) ltac:(discriminate)).
Defined.

Lemma script_summary_witness :
  exists report,
    @summary Toy.Geometry (mkDataFrame 2
               [("address", [VStr "A"; VStr "B"]);
                ("region_zone_id", [VStr "7"; VNone]);
                ("in_region", [VBool true; VBool false])])
    = Some report
    /\ total report = 2
    /\ found report = 1
    /\ not_found report = 1%Z
    /\ (Z.of_nat (found report) + not_found report
        = Z.of_nat (total report))%Z.
Proof.
  exact (script_summary Toy.Geometry Z Toy.geocode Toy.within Toy.reproject
           (Toy.addresses ["A"; "B"])
           (mkDataFrame 2
              [("address", [VStr "A"; VStr "B"]);
               ("region_zone_id", [VStr "7"; VNone]);
               ("in_region", [VBool true; VBool false])])
           Toy.zone_seven [VStr "A"; VStr "B"] eq_refl eq_refl eq_refl).
Defined.

(** The last dot of the whole path is the one that counts, also when it
    stands in a folder name. *)
Example output_path_dot_in_folder :
  output_path "runs.v2/data" = "runs_with_regions.csv".
Proof. reflexivity. Qed.
